(** * Accident-analysis helpers: model of [regression.py],
      [data_visualisation.py] and [data_exploratory.py]

    The helpers are small Python functions over pandas tables and
    statsmodels results.  They are embedded as monadic programs over a
    world that holds

    - the object store (tables and fitted models, addressed by reference,
      so that in-place updates and copies are distinguished),
    - the text written by [print],
    - the figures handed to the display by [plt.show()],
    - a ghost record of every exception raised by an underlying operation.

    Numbers are IEEE binary64 values ([float]), the representation numpy
    and statsmodels give to log-likelihoods, AIC values and numeric
    columns; their arithmetic never traps (a division by zero yields an
    infinity or a nan).  What the libraries compute inside one call
    (reductions of a group of cells, the chi-squared tail, the VIF
    regression) is an interface, declared as type classes; the text of a
    printed number is left to Python: a printed line is recorded as the
    parts of its f-string. *)

From Stdlib Require Import Floats.
From stdpp Require Import base strings list gmap.

Set Default Proof Using "Type".

(** ** Values *)

Inductive exn :=
  | AttributeError (name : string)
  | KeyError (keys : list string)
  | ValueError (msg : string)
  | TypeError (msg : string)
  | LibraryError (class msg : string).

Definition result (A : Type) : Type := exn + A.

(** A cell of a table: a string, a number, or a missing value
    ([None]/[NaN] of an object column). *)
Inductive cell :=
  | Str (s : string)
  | Num (x : float)
  | NA.

(** A column is a sequence of cells; [categories] is [Some cats] for a
    column of categorical dtype with the ordered categories [cats]. *)
Record column := Column {
  categories : option (list string);
  cells : list cell
}.

Definition plain (cs : list cell) : column := Column None cs.

(** A DataFrame: its columns, in order. *)
Definition frame : Type := list (string * column).

Definition loc := nat.

Inductive object :=
  | OFrame (fr : frame)
  | OModel (attrs : gmap string float).

(** What a call returns to Python. *)
Inductive pyval :=
  | PyNone
  | PyDict (items : list (string * float))
  | PyRef (l : loc).

(** A figure, as the call hands it to the plotting library: the kind of
    plot, the table passed as data, the two columns plotted, the title
    and the axis labels.  Styling, and what the library draws from the
    table, are not part of it; plotting calls are taken to succeed. *)
Record chart := Chart {
  chart_kind : string;
  chart_data : frame;
  chart_x : string;
  chart_y : string;
  chart_title : string;
  chart_xlabel : string;
  chart_ylabel : string
}.

Definition blank : chart := Chart "" [] "" "" "" "" "".

(** A printed line: the literal text and the formatted values of the
    f-string ([Fixed n x] is [{x:.nf}], the [Show] parts are [{x}]). *)
Inductive fragment :=
  | Text (s : string)
  | Fixed (digits : nat) (x : float)
  | ShowFloat (x : float)
  | ShowNat (n : nat)
  | ShowNames (names : list string)
  | ShowDtypes (fr : frame).

(** ** The world and the monad of Python calls *)

(** [figures] are the open pyplot figures, the current one first;
    [display] is what [plt.show()] has shown so far. *)
Record world := World {
  heap : list object;
  stdout : list (list fragment);
  figures : list chart;
  display : list chart;
  raised : list exn
}.

Inductive outcome (A : Type) :=
  | Ok (a : A) (w : world)
  | Raise (e : exn) (w : world).
Arguments Ok {A} a w.
Arguments Raise {A} e w.

Definition final {A} (o : outcome A) : world :=
  match o with Ok _ w => w | Raise _ w => w end.

Definition M (A : Type) : Type := world → outcome A.

Definition ret {A} (a : A) : M A := λ w, Ok a w.

Definition bind {A B} (m : M A) (k : A → M B) : M B :=
  λ w, match m w with
       | Ok a w' => k a w'
       | Raise e w' => Raise e w'
       end.

#[global] Instance M_ret : MRet M := @ret.
#[global] Instance M_bind : MBind M := λ A B k m, bind m k.

(** An underlying operation raising [e]: the exception is recorded and
    unwinds the call. *)
Definition throw {A} (e : exn) : M A :=
  λ w, Raise e (World (heap w) (stdout w) (figures w) (display w) (raised w ++ [e])).

(** The result of a library routine, entering the call. *)
Definition lib {A} (r : result A) : M A :=
  match r with
  | inl e => throw e
  | inr a => ret a
  end.

Definition print (line : list fragment) : M () :=
  λ w, Ok () (World (heap w) (stdout w ++ [line]) (figures w) (display w) (raised w)).

(** Allocation of a fresh object; its reference is the next free one. *)
Definition alloc (o : object) : M loc :=
  λ w, Ok (length (heap w))
          (World (heap w ++ [o]) (stdout w) (figures w) (display w) (raised w)).

(** In-place update of the object behind a reference. *)
Definition store (l : loc) (o : object) : M () :=
  λ w, Ok () (World (<[l := o]> (heap w)) (stdout w) (figures w) (display w) (raised w)).

(** How a call reaches a table: through a method or attribute
    ([df.groupby], [df.shape]), by subscript ([df[name]]), by item
    assignment ([df[name] = c]), or by handing it to a library routine
    ([sns.barplot(data=df)]). *)
Inductive access :=
  | Method (name : string)
  | Subscript
  | Assignment
  | Argument.

(** What Python raises when the object reached is not a table: the
    attribute is missing, or the object supports no subscript. *)
Definition not_a_table (a : access) : exn :=
  match a with
  | Method name => AttributeError name
  | Subscript => TypeError "object is not subscriptable"
  | Assignment => TypeError "object does not support item assignment"
  | Argument => TypeError "not a DataFrame"
  end.

(** Using the object behind a reference as a table.  A reference that
    holds no table is outside the documented inputs ([df : pd.DataFrame]);
    the operation that first reaches it fails. *)
Definition load_frame (a : access) (l : loc) : M frame :=
  λ w, match heap w !! l with
       | Some (OFrame fr) => Ok fr w
       | _ => throw (not_a_table a) w
       end.

(** [obj.name]: reading an attribute of a fitted model. *)
Definition getattr (l : loc) (name : string) : M float :=
  λ w, match heap w !! l with
       | Some (OModel attrs) =>
           match attrs !! name with
           | Some x => Ok x w
           | None => throw (AttributeError name) w
           end
       | _ => throw (AttributeError name) w
       end.

(** pyplot: [plt.figure()] opens a figure and makes it current; drawing
    and labelling act on the current figure (opening one if there is
    none); [plt.show()] hands every open figure to the display, oldest
    first, and closes them. *)
Definition plt_figure : M () :=
  λ w, Ok () (World (heap w) (stdout w) (blank :: figures w) (display w) (raised w)).

Definition on_current (f : chart → chart) : M () :=
  λ w, Ok () (World (heap w) (stdout w)
                (match figures w with
                 | [] => [f blank]
                 | c :: fs => f c :: fs
                 end) (display w) (raised w)).

Definition plt_show : M () :=
  λ w, Ok () (World (heap w) (stdout w) [] (display w ++ reverse (figures w)) (raised w)).

Definition plt_title (t : string) : M () :=
  on_current (λ c, Chart (chart_kind c) (chart_data c) (chart_x c) (chart_y c)
                         t (chart_xlabel c) (chart_ylabel c)).

Definition plt_xlabel (t : string) : M () :=
  on_current (λ c, Chart (chart_kind c) (chart_data c) (chart_x c) (chart_y c)
                         (chart_title c) t (chart_ylabel c)).

Definition plt_ylabel (t : string) : M () :=
  on_current (λ c, Chart (chart_kind c) (chart_data c) (chart_x c) (chart_y c)
                         (chart_title c) (chart_xlabel c) t).

(** ** Library interfaces *)

(** scipy: [stats.chi2.sf], the upper tail of the chi-squared law. *)
Class Scipy := {
  chi2_sf : float → float → float
}.

(** statsmodels: the intercept column and the VIF of column [i] of a
    matrix. *)
Class Statsmodels := {
  sm_add_constant : frame → result frame;
  variance_inflation_factor : list (list cell) → nat → result cell
}.

(** pandas: the reduction of the cells of one group. *)
Class GroupBy := {
  agg_sum : list cell → result cell;
  agg_mean : list cell → result cell
}.

(** ** pandas tables: the operations the chart functions call *)

Fixpoint get_column (fr : frame) (name : string) : option column :=
  match fr with
  | [] => None
  | (n, c) :: fr' => if decide (n = name) then Some c else get_column fr' name
  end.

(** [df[name]] *)
Definition getitem (fr : frame) (name : string) : result column :=
  match get_column fr name with
  | Some c => inr c
  | None => inl (KeyError [name])
  end.

(** [df[names]]: the named columns, or a [KeyError] listing the absent
    ones, each once. *)
Definition getitem_cols (fr : frame) (names : list string) : result frame :=
  match filter (λ n, ¬ is_Some (get_column fr n)) names with
  | [] => inr (omap (λ n, pair n <$> get_column fr n) names)
  | missing => inl (KeyError (remove_dups missing))
  end.

(** [df[name] = c] and [df.loc[:, name] = c]: overwrite in place, or append. *)
Fixpoint set_column (fr : frame) (name : string) (c : column) : frame :=
  match fr with
  | [] => [(name, c)]
  | (n, c') :: fr' =>
      if decide (n = name) then (n, c) :: fr'
      else (n, c') :: set_column fr' name c
  end.

(** [df.rename(columns={old: new})] *)
Definition rename_column (fr : frame) (old new : string) : frame :=
  (λ p, (if decide (p.1 = old) then new else p.1, p.2)) <$> fr.

Definition nrows (fr : frame) : nat :=
  match fr with
  | [] => 0
  | (_, c) :: _ => length (cells c)
  end.

Definition isna (c : cell) : bool :=
  match c with
  | NA => true
  | Num x => PrimFloat.is_nan x
  | Str _ => false
  end.

(** Order of group keys: numbers before strings, strings by code point. *)
Definition float_compare (x y : float) : comparison :=
  match PrimFloat.compare x y with
  | FEq => Eq
  | FLt => Lt
  | FGt => Gt
  | FNotComparable => Eq
  end.

Definition cell_compare (a b : cell) : comparison :=
  match a, b with
  | Num x, Num y => float_compare x y
  | Num _, _ => Lt
  | Str _, Num _ => Gt
  | Str s, Str t => String.compare s t
  | Str _, NA => Lt
  | NA, NA => Eq
  | NA, _ => Gt
  end.

Fixpoint key_compare (k1 k2 : list cell) : comparison :=
  match k1, k2 with
  | [], [] => Eq
  | [], _ :: _ => Lt
  | _ :: _, [] => Gt
  | a :: k1', b :: k2' =>
      match cell_compare a b with
      | Eq => key_compare k1' k2'
      | c => c
      end
  end.

Definition same_key (k1 k2 : list cell) : bool :=
  match key_compare k1 k2 with Eq => true | _ => false end.

(** Sorted insertion of a key, keeping the first representative. *)
Fixpoint insert_key (k : list cell) (ks : list (list cell)) : list (list cell) :=
  match ks with
  | [] => [k]
  | k' :: ks' =>
      match key_compare k k' with
      | Lt => k :: ks
      | Eq => ks
      | Gt => k' :: insert_key k ks'
      end
  end.

Definition group_keys (ks : list (list cell)) : list (list cell) :=
  fold_left (λ acc k, insert_key k acc) ks [].

(** Rows of a list of columns of [n] cells each. *)
Fixpoint transpose (n : nat) (cols : list (list cell)) : list (list cell) :=
  match cols with
  | [] => replicate n []
  | c :: cols' => zip_with cons c (transpose n cols')
  end.

Definition nth_cell (j : nat) (r : list cell) : cell := default NA (r !! j).

Fixpoint traverse {A B} (f : A → result B) (l : list A) : result (list B) :=
  match l with
  | [] => inr []
  | a :: l' =>
      match f a with
      | inl e => inl e
      | inr b =>
          match traverse f l' with
          | inl e => inl e
          | inr bs => inr (b :: bs)
          end
      end
  end.

(** The rows of group [g], in row order. *)
Definition group_rows (g : list cell) (rows : list (list cell * list cell))
    : list (list cell * list cell) :=
  filter (λ r, same_key r.1 g) rows.

(** One reduction per value column, over the cells of the group. *)
Definition aggregate (agg : list cell → result cell) (nvals : nat)
    (rows : list (list cell * list cell)) (g : list cell) : result (list cell) :=
  traverse (λ j, agg (nth_cell j <$> (group_rows g rows).*2)) (seq 0 nvals).

(** [df.groupby(keys, as_index=False)[vals].agg()]: rows with a missing
    key are dropped, groups come in sorted key order, the key columns
    are put back in front of the aggregated ones.  The first absent key
    is a [KeyError]; absent value columns are one [KeyError] that names
    them all (pandas lists them in the iteration order of a Python set,
    which is not fixed; here they come in the order of [vals]).  Putting
    a key column back beside a value column of the same name is the
    [ValueError] of pandas 1.x; later versions leave the key column out
    instead, and what is proved about a grouping assumes distinct
    names. *)
Definition groupby_agg (agg : list cell → result cell) (fr : frame)
    (keys vals : list string) : result frame :=
  match traverse (getitem fr) keys with
  | inl e => inl e
  | inr kcols =>
      match getitem_cols fr vals with
      | inl e => inl e
      | inr selected =>
          let vcols := selected.*2 in
          let n := nrows fr in
          let rows :=
            filter (λ r, forallb (λ c, negb (isna c)) r.1)
              (zip (transpose n (cells <$> kcols)) (transpose n (cells <$> vcols))) in
          let groups := group_keys rows.*1 in
          match traverse (aggregate agg (length vals) rows) groups with
          | inl e => inl e
          | inr aggregated =>
              if decide (NoDup (keys ++ vals)) then
                inr (imap (λ j k, (k, plain (nth_cell j <$> groups))) keys ++
                     imap (λ j v, (v, plain (nth_cell j <$> aggregated))) vals)
              else inl (ValueError "cannot insert column, already exists")
          end
      end
  end.

(** [pd.Categorical(values, categories=cats, ordered=True)]: a value that
    is not a category becomes missing. *)
Definition to_category (cats : list string) (c : cell) : cell :=
  match c with
  | Str s => if decide (s ∈ cats) then Str s else NA
  | _ => NA
  end.

Definition Categorical (values : list cell) (cats : list string) : result column :=
  if decide (NoDup cats) then inr (Column (Some cats) (to_category cats <$> values))
  else inl (ValueError "Categorical categories must be unique").

Definition is_category (cat : string) (c : cell) : bool :=
  match c with
  | Str s => bool_decide (s = cat)
  | _ => false
  end.

(** Row numbers of a categorical column in sorted order: by category
    code, missing values last, each class in row order. *)
Definition category_order (cats : list string) (cs : list cell) : list nat :=
  let rows := zip cs (seq 0 (length cs)) in
  (cat ← cats; (filter (λ r, is_category cat r.1) rows).*2) ++
  (filter (λ r, isna r.1) rows).*2.

(** The rows [order] of a table. *)
Definition take_rows (order : list nat) (fr : frame) : frame :=
  (λ p, (p.1, Column (categories p.2) ((λ i, nth_cell i (cells p.2)) <$> order))) <$> fr.

(** The remaining table operations, each a function of its arguments. *)
Class Pandas := {
  sort_plain : frame → string → bool → result frame;
  series_sum : list cell → result cell;
  series_div : list cell → list cell → result (list cell);
  series_div_scalar : list cell → cell → result (list cell);
  melt : frame → list string → list string → string → string → result frame;
  transform_sum : frame → string → string → result column;
  replace : column → list (string * string) → result column;
  pivot : frame → string → string → string → result frame
}.

(** [df.sort_values(col, ascending=...)] *)
Definition sort_values `{Pandas} (fr : frame) (col : string) (ascending : bool)
    : result frame :=
  match getitem fr col with
  | inl e => inl e
  | inr c =>
      match categories c, ascending with
      | Some cats, true => inr (take_rows (category_order cats (cells c)) fr)
      | _, _ => sort_plain fr col ascending
      end
  end.

(** [plt.pie(x)] refuses a negative size.  (The conversion of sizes that
    are not numbers, and the refusal by recent matplotlib versions of
    sizes that are not finite or that are all zero, are not modelled:
    what is proved about a pie that is drawn assumes numbers of ordinary
    magnitude, not all zero.) *)
Definition is_negative (c : cell) : bool :=
  match c with Num x => (x <? 0)%float | _ => false end.

Definition wedge_sizes (sizes : list cell) : result () :=
  if existsb is_negative sizes then
    inl (ValueError "Wedge sizes 'x' must be non negative values")
  else inr ().

(** ** Table operations as calls: which objects they read, create, update *)

Section tables.
Context `{Pandas}.

(** [df.groupby(keys, as_index=False)[vals].sum()] and [.mean()]: a new table. *)
Definition df_groupby (agg : list cell → result cell) (df : loc)
    (keys vals : list string) : M loc :=
  fr ← load_frame (Method "groupby") df;
  g ← lib (groupby_agg agg fr keys vals);
  alloc (OFrame g).

Definition df_getitem (df : loc) (name : string) : M column :=
  fr ← load_frame Subscript df;
  lib (getitem fr name).

(** [df[name] = c]: the table behind [df] is updated in place. *)
Definition df_setitem (df : loc) (name : string) (c : column) : M () :=
  fr ← load_frame Assignment df;
  store df (OFrame (set_column fr name c)).

Definition df_copy (df : loc) : M loc :=
  fr ← load_frame (Method "copy") df;
  alloc (OFrame fr).

Definition df_sort_values (df : loc) (col : string) (ascending : bool) : M loc :=
  fr ← load_frame (Method "sort_values") df;
  sorted ← lib (sort_values fr col ascending);
  alloc (OFrame sorted).

(** [df.rename(columns={old: new}, inplace=True)] *)
Definition df_rename_inplace (df : loc) (old new : string) : M () :=
  fr ← load_frame (Method "rename") df;
  store df (OFrame (rename_column fr old new)).

(** [sns.barplot(data=df, x=x, y=y)]: bars of [y] per [x] on the current
    figure, the axes labelled with the column names. *)
Definition sns_barplot (data : loc) (x y : string) : M () :=
  fr ← load_frame Argument data;
  on_current (λ c, Chart "bar" fr x y (chart_title c) x y).

(** [plt.pie(values, labels=labels)] *)
Definition plt_pie (values labels : string * column) : M () :=
  lib (wedge_sizes (cells values.2));;
  on_current (λ c, Chart "pie" [labels; values] labels.1 values.1
                         (chart_title c) (chart_xlabel c) (chart_ylabel c)).

(** [df.plot(kind="bar", stacked=True)]: pandas opens a figure of its own. *)
Definition df_plot_stacked (data : loc) (index : string) : M () :=
  fr ← load_frame (Method "plot") data;
  plt_figure;;
  on_current (λ c, Chart "stacked bar" fr index "" (chart_title c) index (chart_ylabel c)).

End tables.

(** ** data_visualisation.py

    The colour parameters ([color], [colors], the palette) and the figure
    sizes only style the drawing and are left out; every other parameter
    is kept, [None] standing for an omitted optional argument. *)

Definition canonical_days : list string :=
  ["Lundi"; "Mardi"; "Mercredi"; "Jeudi"; "Vendredi"; "Samedi"; "Dimanche"].

(** ["Weekend" if x in weekend_days else "Weekday"] *)
Definition day_type (weekend_days : list string) (x : cell) : cell :=
  match x with
  | Str s => if decide (s ∈ weekend_days) then Str "Weekend" else Str "Weekday"
  | _ => Str "Weekday"
  end.

Section data_visualisation.
Context `{GroupBy} `{Pandas}.

Definition plot_accidents_by_day (df : loc) (day_col value_col : string)
    (title xlabel ylabel : option string) (day_order : option (list string))
    : M pyval :=
  let title := default "Number of Accidents per Day of the Week" title in
  let xlabel := default "Day of the Week" xlabel in
  let ylabel := default "Total Number of Accidents" ylabel in
  let day_order :=
    match day_order with
    | None => ["Lundi"; "Mardi"; "Mercredi"; "Jeudi"; "Vendredi"; "Samedi"; "Dimanche"]
    | Some order => order
    end in
  day_counts ← df_groupby agg_sum df [day_col] [value_col];
  days ← df_getitem day_counts day_col;
  categorical ← lib (Categorical (cells days) day_order);
  df_setitem day_counts day_col categorical;;
  day_counts ← df_sort_values day_counts day_col true;
  plt_figure;;
  sns_barplot day_counts day_col value_col;;
  plt_title title;;
  plt_xlabel xlabel;;
  plt_ylabel ylabel;;
  plt_show;;
  mret PyNone.

Definition plot_avg_accidents_weekday_vs_weekend (df : loc)
    (day_col value_col : string) (binary_col : option string)
    (weekend_days : option (list string))
    (title xlabel ylabel : option string) : M pyval :=
  let binary_col := default "Weekend" binary_col in
  let title :=
    default "Average Number of Accidents per Day (Weekdays vs. Weekends)" title in
  let xlabel := default "Type of Day" xlabel in
  let ylabel := default "Average Number of Accidents" ylabel in
  let weekend_days :=
    match weekend_days with
    | None => ["Samedi"; "Dimanche"]
    | Some days => days
    end in
  df ← df_copy df;
  days ← df_getitem df day_col;
  df_setitem df binary_col (plain (day_type weekend_days <$> cells days));;
  day_grouped ← df_groupby agg_sum df [day_col; binary_col] [value_col];
  avg_accidents ← df_groupby agg_mean day_grouped [binary_col] [value_col];
  df_rename_inplace avg_accidents value_col "Average_Accidents";;
  plt_figure;;
  sns_barplot avg_accidents binary_col "Average_Accidents";;
  plt_title title;;
  plt_xlabel xlabel;;
  plt_ylabel ylabel;;
  plt_show;;
  mret PyNone.

Definition plot_accidents_by_road_type (df : loc) (road_col value_col : string)
    (title xlabel ylabel : option string) : M pyval :=
  let title := default "Most Common Road Type for Accidents" title in
  let xlabel := default "Road Type" xlabel in
  let ylabel := default "Total Number of Accidents" ylabel in
  road_counts ← df_groupby agg_sum df [road_col] [value_col];
  road_counts ← df_sort_values road_counts value_col false;
  counts ← df_getitem road_counts value_col;
  counts' ← df_getitem road_counts value_col;
  total ← lib (series_sum (cells counts'));
  proportion ← lib (series_div_scalar (cells counts) total);
  df_setitem road_counts "Proportion" (plain proportion);;
  plt_figure;;
  sns_barplot road_counts road_col value_col;;
  plt_title title;;
  plt_xlabel xlabel;;
  plt_ylabel ylabel;;
  plt_show;;
  mret PyNone.

Definition plot_accidents_by_hour (df : loc) (hour_col value_col : string)
    (title xlabel ylabel : option string) : M pyval :=
  let title := default "Accident Distribution by Hour" title in
  let xlabel := default "Hour of the Day" xlabel in
  let ylabel := default "Total Number of Accidents" ylabel in
  hourly_accidents ← df_groupby agg_sum df [hour_col] [value_col];
  plt_figure;;
  sns_barplot hourly_accidents hour_col value_col;;
  plt_title title;;
  plt_xlabel xlabel;;
  plt_ylabel ylabel;;
  plt_show;;
  mret PyNone.

Definition plot_accidents_by_light_condition (df : loc)
    (light_col value_col : string) (title : option string) : M pyval :=
  let title := default "Accidents by Light Condition" title in
  light_counts ← df_groupby agg_sum df [light_col] [value_col];
  counts ← df_getitem light_counts value_col;
  counts' ← df_getitem light_counts value_col;
  total ← lib (series_sum (cells counts'));
  proportion ← lib (series_div_scalar (cells counts) total);
  df_setitem light_counts "Proportion" (plain proportion);;
  plt_figure;;
  values ← df_getitem light_counts value_col;
  labels ← df_getitem light_counts light_col;
  plt_pie (value_col, values) (light_col, labels);;
  plt_title title;;
  plt_show;;
  mret PyNone.

Definition plot_accident_severity_by_light_condition (df : loc)
    (light_col : string) (severity_cols : option (list string))
    (accident_type_mapping : option (list (string * string)))
    (title xlabel ylabel : option string) : M pyval :=
  let title := default "Proportion of accident types by light conditions" title in
  let xlabel := default "Lighting condition" xlabel in
  let ylabel := default "Proportion of accidents (%)" ylabel in
  let severity_cols :=
    match severity_cols with
    | None => ["MS_ACCT_WITH_DEAD"; "MS_ACCT_WITH_MORY_INJ";
               "MS_ACCT_WITH_SERLY_INJ"; "MS_ACCT_WITH_SLY_INJ"]
    | Some cols => cols
    end in
  let accident_type_mapping :=
    match accident_type_mapping with
    | None =>
        [ ("MS_ACCT_WITH_DEAD", "Fatal accidents");
          ("MS_ACCT_WITH_MORY_INJ", "Accidents with fatal injuries (30 days)");
          ("MS_ACCT_WITH_SERLY_INJ", "Accidents with serious injuries");
          ("MS_ACCT_WITH_SLY_INJ", "Accidents with minor injury") ]
    | Some mapping => mapping
    end in
  severity_light ← df_groupby agg_sum df [light_col] severity_cols;
  severity_light ←
    (fr ← load_frame (Method "melt") severity_light;
     melted ← lib (melt fr [light_col] severity_cols "Accident_Type" "Count");
     alloc (OFrame melted));
  total ← (fr ← load_frame (Method "groupby") severity_light;
           lib (transform_sum fr light_col "Count"));
  df_setitem severity_light "Total_Accidents" total;;
  counts ← df_getitem severity_light "Count";
  totals ← df_getitem severity_light "Total_Accidents";
  proportion ← lib (series_div (cells counts) (cells totals));
  df_setitem severity_light "Proportion" (plain proportion);;
  types ← df_getitem severity_light "Accident_Type";
  renamed ← lib (replace types accident_type_mapping);
  df_setitem severity_light "Accident_Type" renamed;;
  severity_pivot ←
    (fr ← load_frame (Method "pivot") severity_light;
     pivoted ← lib (pivot fr light_col "Accident_Type" "Proportion");
     alloc (OFrame pivoted));
  plt_figure;;
  df_plot_stacked severity_pivot light_col;;
  plt_title title;;
  plt_xlabel xlabel;;
  plt_ylabel ylabel;;
  plt_show;;
  mret PyNone.

End data_visualisation.

(** ** regression.py *)

Section regression.
Context `{Scipy} `{Statsmodels}.

Definition compare_models_aic (model1 model2 : loc)
    (name1 name2 : option string) : M pyval :=
  let name1 := default "Model 1" name1 in
  let name2 := default "Model 2" name2 in
  aic1 ← getattr model1 "aic";
  aic2 ← getattr model2 "aic";
  print [Text "AIC - "; Text name1; Text ": "; Fixed 2 aic1];;
  print [Text "AIC - "; Text name2; Text ": "; Fixed 2 aic2];;
  (if (aic1 <? aic2)%float then
     print [Text "→ "; Text name1; Text " has a lower AIC and is preferred."]
   else if (aic2 <? aic1)%float then
     print [Text "→ "; Text name2; Text " has a lower AIC and is preferred."]
   else
     print [Text "→ Both models have the same AIC."]);;
  mret PyNone.

Definition likelihood_ratio_test (model1 model2 : loc)
    (name1 name2 : option string) : M pyval :=
  let name1 := default "Model 1" name1 in
  let name2 := default "Model 2" name2 in
  llf2 ← getattr model2 "llf";
  llf1 ← getattr model1 "llf";
  let lr_stat := (2 * (llf2 - llf1))%float in
  df2 ← getattr model2 "df_model";
  df1 ← getattr model1 "df_model";
  let df_diff := ((df2 + 1) - df1)%float in
  let p_value := chi2_sf lr_stat df_diff in
  print [Text "Likelihood Ratio Test: '"; Text name1; Text "' vs. '"; Text name2;
         Text "'"];;
  print [Text "→ LR Statistic: "; Fixed 2 lr_stat];;
  print [Text "→ Degrees of Freedom: "; ShowFloat df_diff];;
  print [Text "→ p-value: "; Fixed 5 p_value];;
  (if (p_value <? 0x1.999999999999ap-5)%float then
     print [Text "→ '"; Text name2; Text "' significantly improves model fit over '";
            Text name1; Text "' (p < 0.05)."]
   else
     print [Text "→ No significant improvement; '"; Text name1;
            Text "' is sufficient."]);;
  mret PyNone.

Definition compute_pseudo_r2 (model : loc) (model_name : option string)
    : M pyval :=
  let model_name := default "Model" model_name in
  llh ← getattr model "llf";
  null_deviance ← getattr model "null_deviance";
  let llh_null := (null_deviance / -2)%float in
  let r2_ml := (1 - (llh_null / llh))%float in
  nobs ← getattr model "nobs";
  let r2_cu := (r2_ml / (1 - (llh_null / nobs)))%float in
  pseudo_r2_results ← alloc (OFrame
    [ ("Model", plain [Str model_name; Str model_name]);
      ("Metric", plain [Str "r2ML"; Str "r2CU"]);
      ("Value", plain [Num r2_ml; Num r2_cu]) ]);
  mret (PyRef pseudo_r2_results).

(** [X.values]: the rows of the table. *)
Definition values (fr : frame) : list (list cell) :=
  transpose (nrows fr) (cells <$> fr.*2).

(** The list comprehension over [range(X.shape[1])]: one VIF per column. *)
Definition vif_column (X : loc) (width : nat) : M (list cell) :=
  mapM (λ i, fr ← load_frame (Method "values") X;
             lib (variance_inflation_factor (values fr) i))
       (seq 0 width).

Definition compute_vif (df : loc) (features : list string)
    (add_constant : option bool) : M pyval :=
  let add_constant := default true add_constant in
  selected ← (fr ← load_frame Subscript df;
              sel ← lib (getitem_cols fr features);
              alloc (OFrame sel));
  X ← df_copy selected;
  X ← (if add_constant then
         fr ← load_frame Argument X;
         with_const ← lib (sm_add_constant fr);
         alloc (OFrame with_const)
       else mret X);
  columns ← (fr ← load_frame (Method "columns") X; mret fr.*1);
  width ← (fr ← load_frame (Method "shape") X; mret (length fr));
  vifs ← vif_column X width;
  vif_data ← alloc (OFrame
    [ ("Variable", plain (Str <$> columns));
      ("VIF", plain vifs) ]);
  mret (PyRef vif_data).

End regression.

(** ** data_exploratory.py *)

Definition newline : string := String (Ascii.ascii_of_nat 10) "".

Section data_exploratory.

Definition dataset_info (df : loc) : M pyval :=
  fr ← load_frame (Method "shape") df;
  print [Text "Number of rows: "; ShowNat (nrows fr)];;
  fr ← load_frame (Method "shape") df;
  print [Text "Number of columns: "; ShowNat (length fr); Text newline];;
  print [Text "Column names:"];;
  fr ← load_frame (Method "columns") df;
  print [ShowNames fr.*1; Text " "; Text newline];;
  print [Text "Data types:"];;
  fr ← load_frame (Method "dtypes") df;
  print [ShowDtypes fr; Text " "; Text newline];;
  mret PyNone.

End data_exploratory.

(** ** The functions of the repository, as one interface *)

Inductive chart_call :=
  | PlotAccidentsByDay (df : loc) (day_col value_col : string)
      (title xlabel ylabel : option string) (day_order : option (list string))
  | PlotAvgAccidentsWeekdayVsWeekend (df : loc) (day_col value_col : string)
      (binary_col : option string) (weekend_days : option (list string))
      (title xlabel ylabel : option string)
  | PlotAccidentsByRoadType (df : loc) (road_col value_col : string)
      (title xlabel ylabel : option string)
  | PlotAccidentsByHour (df : loc) (hour_col value_col : string)
      (title xlabel ylabel : option string)
  | PlotAccidentsByLightCondition (df : loc) (light_col value_col : string)
      (title : option string)
  | PlotAccidentSeverityByLightCondition (df : loc) (light_col : string)
      (severity_cols : option (list string))
      (accident_type_mapping : option (list (string * string)))
      (title xlabel ylabel : option string).

Inductive call :=
  | Plot (c : chart_call)
  | DatasetInfo (df : loc)
  | CompareModelsAic (model1 model2 : loc) (name1 name2 : option string)
  | LikelihoodRatioTest (model1 model2 : loc) (name1 name2 : option string)
  | ComputePseudoR2 (model : loc) (model_name : option string)
  | ComputeVif (df : loc) (features : list string) (add_constant : option bool).

Section interface.
Context `{GroupBy} `{Pandas} `{Scipy} `{Statsmodels}.

Definition run_chart (c : chart_call) : M pyval :=
  match c with
  | PlotAccidentsByDay df day_col value_col title xlabel ylabel day_order =>
      plot_accidents_by_day df day_col value_col title xlabel ylabel day_order
  | PlotAvgAccidentsWeekdayVsWeekend df day_col value_col binary_col weekend_days
      title xlabel ylabel =>
      plot_avg_accidents_weekday_vs_weekend df day_col value_col binary_col
        weekend_days title xlabel ylabel
  | PlotAccidentsByRoadType df road_col value_col title xlabel ylabel =>
      plot_accidents_by_road_type df road_col value_col title xlabel ylabel
  | PlotAccidentsByHour df hour_col value_col title xlabel ylabel =>
      plot_accidents_by_hour df hour_col value_col title xlabel ylabel
  | PlotAccidentsByLightCondition df light_col value_col title =>
      plot_accidents_by_light_condition df light_col value_col title
  | PlotAccidentSeverityByLightCondition df light_col severity_cols
      accident_type_mapping title xlabel ylabel =>
      plot_accident_severity_by_light_condition df light_col severity_cols
        accident_type_mapping title xlabel ylabel
  end.

Definition run (c : call) : M pyval :=
  match c with
  | Plot c => run_chart c
  | DatasetInfo df => dataset_info df
  | CompareModelsAic model1 model2 name1 name2 =>
      compare_models_aic model1 model2 name1 name2
  | LikelihoodRatioTest model1 model2 name1 name2 =>
      likelihood_ratio_test model1 model2 name1 name2
  | ComputePseudoR2 model model_name => compute_pseudo_r2 model model_name
  | ComputeVif df features add_constant => compute_vif df features add_constant
  end.

(** The table a chart call reads. *)
Definition dataset_of (c : chart_call) : loc :=
  match c with
  | PlotAccidentsByDay df _ _ _ _ _ _
  | PlotAvgAccidentsWeekdayVsWeekend df _ _ _ _ _ _ _
  | PlotAccidentsByRoadType df _ _ _ _ _
  | PlotAccidentsByHour df _ _ _ _ _
  | PlotAccidentsByLightCondition df _ _ _
  | PlotAccidentSeverityByLightCondition df _ _ _ _ _ _ => df
  end.

End interface.

(** What a call hands back: the value it returns, or the exception. *)
Definition status {A} (o : outcome A) : exn + A :=
  match o with
  | Ok a _ => inr a
  | Raise e _ => inl e
  end.

(** ** The effect of a call *)

(** What a call adds to the world it starts in: objects it creates (at
    fresh references, with their final contents), lines it prints,
    figures it opens and leaves open (the current one first), the
    figures it draws when it reaches [plt.show()], exceptions raised by
    the operations it calls. *)
Record effect := Effect {
  created : list object;
  printed : list (list fragment);
  pending : list chart;
  shown : option (list chart);
  errors : list exn
}.

Definition no_effect : effect := Effect [] [] [] None [].

Definition after (w : world) (eff : effect) : world :=
  World (heap w ++ created eff)
        (stdout w ++ printed eff)
        (match shown eff with
         | Some _ => []
         | None => pending eff ++ figures w
         end)
        (match shown eff with
         | Some own => display w ++ reverse (figures w) ++ own
         | None => display w
         end)
        (raised w ++ errors eff).

Definition outcome_of {A} (st : exn + A) (w : world) : outcome A :=
  match st with
  | inl e => Raise e w
  | inr a => Ok a w
  end.

(** [o] is the outcome of a call started in [w]: the world of [o] is [w]
    with an effect added, and an exception was raised underneath exactly
    when the call hands one to its caller. *)
Definition extends (o : outcome pyval) (w : world) : Prop :=
  ∃ eff st, o = outcome_of st (after w eff)
            ∧ errors eff = match st with inl e => [e] | inr _ => [] end.

(** Two runs of a call, started in [w1] and [w2], with the same effect
    and the same result. *)
Definition related (o1 o2 : outcome pyval) (w1 w2 : world) : Prop :=
  ∃ eff st, o1 = outcome_of st (after w1 eff) ∧ o2 = outcome_of st (after w2 eff)
            ∧ errors eff = match st with inl e => [e] | inr _ => [] end.

(** The display after a call that started in [w] and drew [drawn]
    ([None]: the call did not reach [plt.show()]). *)
Definition displayed (w : world) (drawn : option (list chart)) : list chart :=
  match drawn with
  | Some own => display w ++ reverse (figures w) ++ own
  | None => display w
  end.

(** ** Example objects *)

(** Two fitted models with AIC 100.0 and 95.0. *)
Definition aic_models : world :=
  World [OModel {["aic" := 100%float]}; OModel {["aic" := 95%float]}] [] [] [] [].

(** A restricted model (log-likelihood -500, 3 degrees of freedom) and a
    full one (log-likelihood -490, 4 degrees of freedom). *)
Definition nested_models : world :=
  World [OModel {["llf" := (-500)%float; "df_model" := 3%float]};
         OModel {["llf" := (-490)%float; "df_model" := 4%float]}] [] [] [] [].

(** A model with null deviance 200, log-likelihood -80, 50 observations. *)
Definition degenerate_model : world :=
  World [OModel {["null_deviance" := 200%float; "llf" := (-80)%float;
                  "nobs" := 50%float]}] [] [] [] [].

(** The chi-squared tail at the one point the examples use,
    [chi2.sf(20.0, 2) = exp(-10)]; [nan] stands for every other value. *)
Definition chi2_sf_at_example : Scipy :=
  {| chi2_sf x k :=
       if ((x =? 20) && (k =? 2))%float then 0x1.7cd79b5647c9cp-15%float
       else nan |}.

(** [listed cats c]: the cell [c] is one of the labels [cats]. *)
Definition listed (cats : list string) (c : cell) : bool :=
  match c with
  | Str s => bool_decide (s ∈ cats)
  | _ => false
  end.

(** ** A reference reduction and example datasets *)

(** The numbers of a group, missing values skipped; a string among them
    is a type error of the reduction. *)
Fixpoint numbers (cs : list cell) : result (list float) :=
  match cs with
  | [] => inr []
  | Num x :: cs' =>
      match numbers cs' with
      | inl e => inl e
      | inr xs => inr (if PrimFloat.is_nan x then xs else x :: xs)
      end
  | NA :: cs' => numbers cs'
  | Str _ :: _ => inl (TypeError "unsupported operand type")
  end.

Fixpoint float_of_nat (n : nat) : float :=
  match n with
  | 0 => 0%float
  | S n' => (float_of_nat n' + 1)%float
  end.

(** The strings of a group all of whose cells are strings. *)
Fixpoint strings (cs : list cell) : option (list string) :=
  match cs with
  | [] => Some []
  | Str s :: cs' => cons s <$> strings cs'
  | _ => None
  end.

(** A stand-in for the reductions of pandas in examples: sum and mean
    computed from left to right in binary64, which is what pandas returns
    whenever, as in the examples, the numbers are small integers and
    every partial sum is exact (pandas adds an integer column in int64
    and a float column with a compensated sum).  The sum of a group of
    strings is their concatenation, as for pandas' [sum] on a column of
    strings; their mean is a type error. *)
Definition left_to_right : GroupBy :=
  {| agg_sum cs :=
       match cs, strings cs with
       | _ :: _, Some ss => inr (Str (foldr String.append "" ss))
       | _, _ =>
           match numbers cs with
           | inl e => inl e
           | inr xs => inr (Num (foldl PrimFloat.add 0%float xs))
           end
       end;
     agg_mean cs :=
       match numbers cs with
       | inl e => inl e
       | inr xs =>
           inr (Num (foldl PrimFloat.add 0%float xs / float_of_nat (length xs))%float)
       end |}.

(** One week of accident counts, several rows per day: the per-day sums
    are Samedi 10, Dimanche 20 and 5 for each of the five other days. *)
Definition week : frame :=
  [ ("Jour", plain [Str "Lundi"; Str "Samedi"; Str "Mardi"; Str "Samedi";
                    Str "Dimanche"; Str "Mardi"; Str "Mercredi"; Str "Jeudi";
                    Str "Vendredi"; Str "Vendredi"]);
    ("Accidents", plain [Num 5; Num 4; Num 2; Num 6;
                         Num 20; Num 3; Num 5; Num 5;
                         Num 1; Num 4]) ].

Definition week_world : world := World [OFrame week] [] [] [] [].

(** The same week with two rows whose label is not a day of the week. *)
Definition week_with_holidays : frame :=
  [ ("Jour", plain [Str "Lundi"; Str "Samedi"; Str "Ferie"; Str "Dimanche";
                    Str "Samedi"; Str "Ferie"]);
    ("Accidents", plain [Num 5; Num 4; Num 7; Num 20; Num 6; Num 1]) ].

Definition holiday_world : world := World [OFrame week_with_holidays] [] [] [] [].

(** An environment in which the table operations left as parameters are
    unavailable: each raises.  Calls that never reach them run as they
    do with pandas. *)
Definition pandas_unavailable : Pandas :=
  let unavailable {A} : result A := inl (LibraryError "pandas" "unavailable") in
  {| sort_plain _ _ _ := unavailable;
     series_sum _ := unavailable;
     series_div _ _ := unavailable;
     series_div_scalar _ _ := unavailable;
     melt _ _ _ _ _ := unavailable;
     transform_sum _ _ _ := unavailable;
     replace _ _ := unavailable;
     pivot _ _ _ _ := unavailable |}.

(** ** The weekday/weekend comparison, in the words of the specification *)

Fixpoint insert_day (d : cell) (ds : list cell) : list cell :=
  match ds with
  | [] => [d]
  | d' :: ds' =>
      match cell_compare d d' with
      | Lt => d :: ds
      | Eq => ds
      | Gt => d' :: insert_day d ds'
      end
  end.

(** The exact day labels of a column, each once, in sorted order. *)
Definition exact_days (days : list cell) : list cell :=
  fold_left (λ acc d, insert_day d acc) (filter (λ d, negb (isna d)) days) [].

Definition same_day (d d' : cell) : bool :=
  match cell_compare d d' with Eq => true | _ => false end.

Section two_stage.
Context `{GroupBy}.

(** Stage one: the sum of the value column over the rows of one exact day. *)
Definition day_sum (days values : list cell) (d : cell) : result cell :=
  agg_sum (filter (λ r : cell * cell, same_day r.1 d)
             (filter (λ r : cell * cell, negb (isna r.1)) (zip days values))).*2.

Definition day_sums (days values : list cell) : result (list cell) :=
  traverse (day_sum days values) (exact_days days).

(** Stage two: the mean of the per-day sums over the days that share one
    Weekend/Weekday label. *)
Definition day_type_mean (weekend_days : list string) (days sums : list cell)
    (label : string) : result cell :=
  agg_mean (filter (λ r : cell * cell, is_category label (day_type weekend_days r.1))
              (zip days sums)).*2.

Definition day_types_present (weekend_days : list string) (days : list cell)
    : list string :=
  filter (λ label, existsb (λ d, is_category label (day_type weekend_days d)) days)
         ["Weekday"; "Weekend"].

Definition weekday_weekend_means (weekend_days : list string)
    (days values : list cell) : result (list cell) :=
  match day_sums days values with
  | inl e => inl e
  | inr sums =>
      traverse (day_type_mean weekend_days (exact_days days) sums)
               (day_types_present weekend_days (exact_days days))
  end.

(** For contrast, the flat mean over the rows of one label. *)
Definition flat_mean (weekend_days : list string) (days values : list cell)
    (label : string) : result cell :=
  agg_mean (filter (λ r : cell * cell, is_category label (day_type weekend_days r.1))
              (zip days values)).*2.

End two_stage.

(** ** The columns a chart call groups by and aggregates *)

Definition key_column (c : chart_call) : string :=
  match c with
  | PlotAccidentsByDay _ day_col _ _ _ _ _ => day_col
  | PlotAvgAccidentsWeekdayVsWeekend _ day_col _ _ _ _ _ _ => day_col
  | PlotAccidentsByRoadType _ road_col _ _ _ _ => road_col
  | PlotAccidentsByHour _ hour_col _ _ _ _ => hour_col
  | PlotAccidentsByLightCondition _ light_col _ _ => light_col
  | PlotAccidentSeverityByLightCondition _ light_col _ _ _ _ _ => light_col
  end.

(** The single value column of the calls that have one. *)
Definition value_column (c : chart_call) : option string :=
  match c with
  | PlotAccidentsByDay _ _ value_col _ _ _ _
  | PlotAvgAccidentsWeekdayVsWeekend _ _ value_col _ _ _ _ _
  | PlotAccidentsByRoadType _ _ value_col _ _ _
  | PlotAccidentsByHour _ _ value_col _ _ _
  | PlotAccidentsByLightCondition _ _ value_col _ => Some value_col
  | PlotAccidentSeverityByLightCondition _ _ _ _ _ _ _ => None
  end.

(** The column a call adds to its copy of the dataset. *)
Definition label_column (c : chart_call) : option string :=
  match c with
  | PlotAvgAccidentsWeekdayVsWeekend _ _ _ binary_col _ _ _ _ =>
      Some (default "Weekend" binary_col)
  | _ => None
  end.

Definition is_severity_chart (c : chart_call) : bool :=
  match c with
  | PlotAccidentSeverityByLightCondition _ _ _ _ _ _ _ => true
  | _ => false
  end.

(** ** What the diagnostics print and build *)

(** The conclusion [compare_models_aic] prints: the branch its
    [if]/[elif]/[else] takes on the two AIC values. *)
Definition aic_verdict (name1 name2 : string) (aic1 aic2 : float) : list fragment :=
  if (aic1 <? aic2)%float then
    [Text "→ "; Text name1; Text " has a lower AIC and is preferred."]
  else if (aic2 <? aic1)%float then
    [Text "→ "; Text name2; Text " has a lower AIC and is preferred."]
  else [Text "→ Both models have the same AIC."].

(** The table [compute_pseudo_r2] builds from the three attributes it
    reads. *)
Definition pseudo_r2_table (model_name : string)
    (llf null_deviance nobs : float) : frame :=
  let llh_null := (null_deviance / -2)%float in
  let r2_ml := (1 - (llh_null / llf))%float in
  let r2_cu := (r2_ml / (1 - (llh_null / nobs)))%float in
  [ ("Model", plain [Str model_name; Str model_name]);
    ("Metric", plain [Str "r2ML"; Str "r2CU"]);
    ("Value", plain [Num r2_ml; Num r2_cu]) ].

(** ** Further example objects *)

(** A column that already is an intercept: one number, not zero, in
    every row. *)
Definition is_constant (c : column) : bool :=
  match cells c with
  | Num x :: cs =>
      negb (x =? 0)%float
      && forallb (λ c, match c with Num y => (y =? x)%float | _ => false end) cs
  | _ => false
  end.

(** A stand-in for statsmodels in examples: the intercept column of ones
    is prepended unless the table has a constant column already
    ([has_constant="skip"]), and every VIF is reported as 1.0 (the value
    for uncorrelated columns). *)
Definition statsmodels_uncorrelated : Statsmodels :=
  {| sm_add_constant fr :=
       if existsb is_constant fr.*2 then inr fr
       else inr (("const", plain (replicate (nrows fr) (Num 1))) :: fr);
     variance_inflation_factor _ _ := inr (Num 1) |}.

(** A model whose AIC is not a number, beside one with AIC 95.0. *)
Definition unfitted_models : world :=
  World [OModel {["aic" := nan]}; OModel {["aic" := 95%float]}] [] [] [] [].

(** Two models passed in the wrong order: the "full" one has fewer
    degrees of freedom, so the test has (1 + 1) - 3 = -1 degrees of
    freedom. *)
Definition swapped_models : world :=
  World [OModel {["llf" := (-490)%float; "df_model" := 3%float]};
         OModel {["llf" := (-500)%float; "df_model" := 1%float]}] [] [] [] [].

(** A week recorded with English day names. *)
Definition english_week : frame :=
  [ ("Day", plain [Str "Saturday"; Str "Monday"; Str "Saturday"; Str "Sunday"]);
    ("Accidents", plain [Num 4; Num 5; Num 6; Num 20]) ].

Definition english_world : world := World [OFrame english_week] [] [] [] [].

(** Accident counts by hour, one row without an hour. *)
Definition rush_hours : frame :=
  [ ("Heure", plain [Num 17; Num 8; Num 17; NA; Num 8]);
    ("Accidents", plain [Num 3; Num 2; Num 4; Num 9; Num 1]) ].

Definition rush_hours_world : world := World [OFrame rush_hours] [] [] [] [].

(** Accident counts by light condition. *)
Definition light_conditions : frame :=
  [ ("Lumiere", plain [Str "Jour"; Str "Nuit"; Str "Jour"]);
    ("Accidents", plain [Num 5; Num 2; Num 1]) ].

Definition light_conditions_world : world :=
  World [OFrame light_conditions] [] [] [] [].

(** [c / total] on cells. *)
Definition divide_cell (total c : cell) : cell :=
  match c, total with
  | Num x, Num t => Num (x / t)
  | _, _ => NA
  end.

(** An environment with the arithmetic of a numeric series (sum from
    left to right, elementwise division) and none of the other table
    operations left as parameters. *)
Definition pandas_series : Pandas :=
  let unavailable {A} : result A := inl (LibraryError "pandas" "unavailable") in
  {| sort_plain _ _ _ := unavailable;
     series_sum cs := @agg_sum left_to_right cs;
     series_div cs ds := inr (zip_with (λ c d, divide_cell d c) cs ds);
     series_div_scalar cs total := inr (divide_cell total <$> cs);
     melt _ _ _ _ _ := unavailable;
     transform_sum _ _ _ := unavailable;
     replace _ _ := unavailable;
     pivot _ _ _ _ := unavailable |}.



(** Sizes a pie can be drawn from: numbers between 0 and 2^64, one of
    them at least 2^-64. *)
Definition plain_sizes (sizes : list cell) : bool :=
  forallb (λ c, match c with
                | Num x => (0 <=? x)%float && (x <=? 0x1p+64)%float
                | _ => false
                end) sizes
  && existsb (λ c, match c with
                   | Num x => (0x1p-64 <=? x)%float
                   | _ => false
                   end) sizes.

(** Counts by light condition with a correction entered as a negative
    count: the sum for Nuit is -2. *)
Definition corrected_counts : frame :=
  [ ("Lumiere", plain [Str "Jour"; Str "Nuit"; Str "Jour"]);
    ("Accidents", plain [Num 5; Num (-2); Num 1]) ].

(** ** The failures of the underlying operations

    The functions contain no [raise], [try] or [except]: a call fails when
    one of the operations it performs fails.  [underlying_failure c w e]
    says that, for the call [c] started in [w], the operations before one
    of them succeed and that one fails with [e]; there is one rule per
    operation that can fail, in the order of the source. *)








Section failures_of_operations.
Context `{GroupBy} `{Pandas} `{Statsmodels}.



End failures_of_operations.

(** * Verification *)

(** ** Running a call step by step *)

Lemma after_no_effect (w : world) : after w no_effect = w.
Proof. destruct w. unfold after, no_effect. simpl. by rewrite !app_nil_r. Qed.

Lemma bind_ok {A B} (m : M A) (k : A → M B) (w w' : world) (a : A) :
  m w = Ok a w' → (m ≫= k) w = k a w'.
Proof. intros Hm. unfold mbind, M_bind, bind. by rewrite Hm. Qed.

Lemma bind_raise {A B} (m : M A) (k : A → M B) (w w' : world) (e : exn) :
  m w = Raise e w' → (m ≫= k) w = Raise e w'.
Proof. intros Hm. unfold mbind, M_bind, bind. by rewrite Hm. Qed.

Lemma bind_assoc {A B C} (m : M A) (f : A → M B) (g : B → M C) (w : world) :
  ((m ≫= f) ≫= g) w = (m ≫= λ a, f a ≫= g) w.
Proof. unfold mbind, M_bind, bind. by destruct (m w). Qed.

Lemma bind_lib_ok {A B} (a : A) (k : A → M B) (w : world) :
  (lib (inr a) ≫= k) w = k a w.
Proof. done. Qed.

Section steps.
Context (w : world) (cr : list object) (pr : list (list fragment))
  (pe : list chart) (er : list exn).

Lemma alloc_after (o : object) (sh : option (list chart)) :
  alloc o (after w (Effect cr pr pe sh er)) =
  Ok (length (heap w) + length cr) (after w (Effect (cr ++ [o]) pr pe sh er)).
Proof. unfold alloc, after. simpl. by rewrite length_app, app_assoc. Qed.

Lemma print_after (line : list fragment) (sh : option (list chart)) :
  print line (after w (Effect cr pr pe sh er)) =
  Ok () (after w (Effect cr (pr ++ [line]) pe sh er)).
Proof. unfold print, after. simpl. by rewrite app_assoc. Qed.

Lemma throw_after {A} (e : exn) (sh : option (list chart)) :
  @throw A e (after w (Effect cr pr pe sh er)) =
  Raise e (after w (Effect cr pr pe sh (er ++ [e]))).
Proof. unfold throw, after. simpl. by rewrite app_assoc. Qed.

Lemma plt_figure_after :
  plt_figure (after w (Effect cr pr pe None er)) =
  Ok () (after w (Effect cr pr (blank :: pe) None er)).
Proof. reflexivity. Qed.

Lemma on_current_after (f : chart → chart) (c : chart) :
  on_current f (after w (Effect cr pr (c :: pe) None er)) =
  Ok () (after w (Effect cr pr (f c :: pe) None er)).
Proof. reflexivity. Qed.

Lemma plt_show_after :
  plt_show (after w (Effect cr pr pe None er)) =
  Ok () (after w (Effect cr pr [] (Some (reverse pe)) er)).
Proof. unfold plt_show, after. simpl. by rewrite reverse_app. Qed.

Lemma load_private (a : access) (i : nat) (fr : frame) (sh : option (list chart)) :
  cr !! i = Some (OFrame fr) →
  load_frame a (length (heap w) + i) (after w (Effect cr pr pe sh er)) =
  Ok fr (after w (Effect cr pr pe sh er)).
Proof.
  intros Hi. unfold load_frame, after. simpl.
  rewrite lookup_app_r by lia.
  replace (length (heap w) + i - length (heap w)) with i by lia.
  by rewrite Hi.
Qed.

Lemma store_private (i : nat) (o : object) (cr' : list object)
    (sh : option (list chart)) :
  i < length cr → cr' = <[i := o]> cr →
  store (length (heap w) + i) o (after w (Effect cr pr pe sh er)) =
  Ok () (after w (Effect cr' pr pe sh er)).
Proof.
  intros Hi ->. unfold store, after. simpl. by rewrite insert_app_r.
Qed.

Lemma bind_lib_raise {A B} (e : exn) (k : A → M B) (sh : option (list chart)) :
  (lib (inl e) ≫= k) (after w (Effect cr pr pe sh er)) =
  Raise e (after w (Effect cr pr pe sh (er ++ [e]))).
Proof. apply bind_raise, throw_after. Qed.

End steps.

(** Reading through a reference of the caller, before anything was created. *)
Lemma load_caller (w : world) (a : access) (l : loc) pr pe sh er :
  load_frame a l (after w (Effect [] pr pe sh er)) =
  match heap w !! l with
  | Some (OFrame fr) => Ok fr (after w (Effect [] pr pe sh er))
  | _ => Raise (not_a_table a)
           (after w (Effect [] pr pe sh (er ++ [not_a_table a])))
  end.
Proof.
  unfold load_frame, throw, after. simpl. rewrite !app_nil_r.
  destruct (heap w !! l) as [[fr|attrs]|]; simpl; by rewrite ?app_assoc.
Qed.

Lemma getattr_caller (w : world) (l : loc) (name : string) pr pe sh er :
  getattr l name (after w (Effect [] pr pe sh er)) =
  match heap w !! l with
  | Some (OModel attrs) =>
      match attrs !! name with
      | Some x => Ok x (after w (Effect [] pr pe sh er))
      | None => Raise (AttributeError name)
                  (after w (Effect [] pr pe sh (er ++ [AttributeError name])))
      end
  | _ => Raise (AttributeError name)
           (after w (Effect [] pr pe sh (er ++ [AttributeError name])))
  end.
Proof.
  unfold getattr, throw, after. simpl. rewrite !app_nil_r.
  repeat case_match; simpl; by rewrite ?app_assoc.
Qed.

Ltac unfold_calls :=
  unfold df_groupby, df_getitem, df_setitem, df_copy, df_sort_values,
    df_rename_inplace, sns_barplot, plt_pie, df_plot_stacked,
    plt_title, plt_xlabel, plt_ylabel, lib,
    mbind, M_bind, bind, mret, M_ret, ret.

(** One statement of the call under execution. *)
Ltac step :=
  first
    [ progress cbv beta iota
    | rewrite alloc_after
    | rewrite print_after
    | rewrite throw_after
    | rewrite plt_figure_after
    | rewrite on_current_after
    | rewrite plt_show_after
    | rewrite load_caller
    | rewrite getattr_caller
    | erewrite load_private by reflexivity
    | erewrite store_private by first [ reflexivity | simpl; lia ]
    | match goal with
      | Hl : heap ?w !! ?l = _ |- context [heap ?w !! ?l] => rewrite Hl
      | Ha : ?attrs !! ?n = _ |- context [?attrs !! ?n] => rewrite Ha
      end ].

Ltac split_result :=
  match goal with
  | |- context [match heap ?w !! ?l with Some _ => _ | None => _ end] =>
      let E := fresh "E" in destruct (heap w !! l) as [[?|?]|] eqn:E
  | |- context [match ?r with inl _ => _ | inr _ => _ end] =>
      is_var r || (let E := fresh "E" in destruct r eqn:E)
  | |- context [match ?a !! ?n with Some _ => _ | None => _ end] =>
      let E := fresh "E" in destruct (a !! n) eqn:E
  | |- context [if ?b then _ else _] => destruct b
  end.

Ltac run_call := repeat first [ step | split_result ].

(** ** Every call only adds to the world *)

Lemma related_extends (o : outcome pyval) (w : world) :
  related o o w w → extends o w.
Proof. intros (eff & st & Ho & _ & He). by exists eff, st. Qed.

Lemma related_start (m : M pyval) (w1 w2 : world) :
  related (m (after w1 no_effect)) (m (after w2 no_effect)) w1 w2 →
  related (m w1) (m w2) w1 w2.
Proof. by rewrite !after_no_effect. Qed.

Lemma related_raise (e : exn) (w1 w2 : world) cr pr pe sh :
  related (Raise e (after w1 (Effect cr pr pe sh ([] ++ [e]))))
          (Raise e (after w2 (Effect cr pr pe sh ([] ++ [e])))) w1 w2.
Proof. by eexists _, (inl e). Qed.

Lemma related_ok (v : pyval) (w1 w2 : world) cr pr pe sh :
  related (Ok v (after w1 (Effect cr pr pe sh [])))
          (Ok v (after w2 (Effect cr pr pe sh []))) w1 w2.
Proof. by eexists _, (inr v). Qed.

Lemma extends_start (m : M pyval) (w : world) :
  extends (m (after w no_effect)) w → extends (m w) w.
Proof. by rewrite !after_no_effect. Qed.

Lemma extends_raise (e : exn) (w : world) cr pr pe sh :
  extends (Raise e (after w (Effect cr pr pe sh ([] ++ [e])))) w.
Proof. by eexists _, (inl e). Qed.

Lemma extends_ok (v : pyval) (w : world) cr pr pe sh :
  extends (Ok v (after w (Effect cr pr pe sh []))) w.
Proof. by eexists _, (inr v). Qed.

Ltac finish :=
  first [ apply related_raise | apply related_ok
        | apply extends_raise | apply extends_ok ].

Section effects.
Context `{GroupBy} `{Pandas} `{Scipy} `{Statsmodels}.

Lemma run_chart_related (c : chart_call) (w1 w2 : world) :
  heap w1 !! dataset_of c = heap w2 !! dataset_of c →
  related (run_chart c w1) (run_chart c w2) w1 w2.
Proof.
  intros Hdf. apply related_start.
  destruct c; simpl in Hdf; unfold run_chart, no_effect.
  all: unfold plot_accidents_by_day, plot_avg_accidents_weekday_vs_weekend,
    plot_accidents_by_road_type, plot_accidents_by_hour,
    plot_accidents_by_light_condition, plot_accident_severity_by_light_condition.
  all: unfold_calls.
  all: rewrite !load_caller, <- Hdf.
  all: destruct (heap w1 !! df) as [[fr|attrs]|]; [|finish..].
  all: run_call; finish.
Qed.

Lemma vif_column_after (w : world) cr pr pe sh er (i : nat) (fr : frame) (width : nat) :
  cr !! i = Some (OFrame fr) →
  vif_column (length (heap w) + i) width (after w (Effect cr pr pe sh er)) =
  match traverse (variance_inflation_factor (values fr)) (seq 0 width) with
  | inl e => Raise e (after w (Effect cr pr pe sh (er ++ [e])))
  | inr vifs => Ok vifs (after w (Effect cr pr pe sh er))
  end.
Proof.
  intros Hi. unfold vif_column. induction (seq 0 width) as [|j js IH]; [done|].
  change (mapM ?f (j :: js)) with (y ← f j; k ← mapM f js; mret (y :: k)).
  cbn [traverse].
  rewrite bind_assoc. erewrite bind_ok by (by apply load_private).
  destruct (variance_inflation_factor (values fr) j) as [e|v].
  { by rewrite bind_lib_raise. }
  rewrite bind_lib_ok.
  destruct (traverse _ js) as [e|vs].
  - by erewrite bind_raise.
  - by erewrite bind_ok.
Qed.

Lemma run_extends (c : call) (w : world) : extends (run c w) w.
Proof.
  destruct c as [c| | | | |].
  { apply related_extends. by apply run_chart_related. }
  all: apply extends_start; unfold run, no_effect.
  all: unfold dataset_info, compare_models_aic, likelihood_ratio_test,
    compute_pseudo_r2, compute_vif.
  all: unfold_calls.
  - run_call; finish.
  - run_call; finish.
  - run_call; finish.
  - run_call; finish.
  - run_call; try finish.
    all: erewrite vif_column_after by reflexivity.
    all: run_call; finish.
Qed.

End effects.

Section guarantees.
Context `{GroupBy} `{Pandas} `{Scipy} `{Statsmodels}.

Lemma run_chart_no_table (c : chart_call) (w : world) :
  heap w !! dataset_of c = None →
  ∃ e, run_chart c w = throw e w.
Proof.
  intros Hdf. destruct c; simpl in Hdf; unfold run_chart.
  all: unfold plot_accidents_by_day, plot_avg_accidents_weekday_vs_weekend,
    plot_accidents_by_road_type, plot_accidents_by_hour,
    plot_accidents_by_light_condition, plot_accident_severity_by_light_condition.
  all: unfold_calls; unfold load_frame; rewrite Hdf; by eexists.
Qed.

Lemma run_chart_keeps_dataset (c : chart_call) (w : world) :
  heap w !! dataset_of c = heap (final (run_chart c w)) !! dataset_of c.
Proof.
  destruct (heap w !! dataset_of c) as [o|] eqn:Hdf.
  - destruct (run_chart_related c w w eq_refl) as (eff & st & -> & _ & _).
    symmetry. destruct st; simpl; by apply lookup_app_l_Some.
  - destruct (run_chart_no_table c w Hdf) as [e ->]. by simpl.
Qed.

(** C6: every object that exists when a function of the repository is
    called (the caller's datasets and fitted models among them) is at the
    same reference with the same content when the call ends, whether it
    returns or raises: the store after the call is the store before it,
    followed by the objects the call created.  The Weekend/Weekday column
    of [plot_avg_accidents_weekday_vs_weekend] therefore lands in one of
    the created objects, the copy. *)
Theorem caller_objects_unchanged (c : call) (w : world) :
  (∃ created : list object, heap (final (run c w)) = heap w ++ created)
  ∧ (∀ (l : loc) (o : object),
       heap w !! l = Some o → heap (final (run c w)) !! l = Some o).
Proof.
  destruct (run_extends c w) as (eff & st & -> & _).
  assert (heap (final (outcome_of st (after w eff))) = heap w ++ created eff)
    as Hheap by (by destruct st).
  split; [by exists (created eff)|].
  intros l o Hl. rewrite Hheap. by apply lookup_app_l_Some.
Qed.

(** C9: a chart function called a second time on the same dataset
    reference with the same parameters, in the world the first call left,
    hands back the same result (or the same exception) and draws the same
    figures, aggregated table included. *)
Theorem chart_calls_repeatable (c : chart_call) (w : world) :
  let first := run_chart c w in
  let second := run_chart c (final first) in
  status second = status first ∧
  ∃ drawn : option (list chart),
    display (final first) = displayed w drawn ∧
    display (final second) = displayed (final first) drawn.
Proof.
  intros first second. subst first second.
  destruct (run_chart_related c w _ (run_chart_keeps_dataset c w))
    as (eff & st & Hfirst & Hsecond & _).
  rewrite Hsecond, !Hfirst.
  split; [by destruct st|].
  exists (shown eff). by destruct eff as [cr pr pe [own|] er], st.
Qed.

End guarantees.

(** ** regression.py: the diagnostics *)

Lemma run_from_start {A} (m : M A) (w : world) (o : outcome A) :
  m (after w no_effect) = o → m w = o.
Proof. by rewrite after_no_effect. Qed.

Lemma after_printed (w : world) (lines : list (list fragment)) :
  after w (Effect [] lines [] None []) =
  World (heap w) (stdout w ++ lines) (figures w) (display w) (raised w).
Proof. unfold after. simpl. by rewrite !app_nil_r. Qed.

Lemma after_created (w : world) (objects : list object) :
  after w (Effect objects [] [] None []) =
  World (heap w ++ objects) (stdout w) (figures w) (display w) (raised w).
Proof. unfold after. simpl. by rewrite !app_nil_r. Qed.

Section regression_facts.
Context `{Scipy}.

Lemma compare_models_aic_value (model1 model2 : loc) (name1 name2 : option string)
    (w w' : world) (v : pyval) :
  compare_models_aic model1 model2 name1 name2 w = Ok v w' → v = PyNone.
Proof.
  unfold compare_models_aic, mbind, M_bind, bind, mret, M_ret, ret.
  destruct (getattr model1 "aic" w) as [aic1 w1|]; [|done].
  destruct (getattr model2 "aic" w1) as [aic2 w2|]; [|done].
  cbn. repeat case_match; cbn; congruence.
Qed.

Lemma likelihood_ratio_test_value (model1 model2 : loc) (name1 name2 : option string)
    (w w' : world) (v : pyval) :
  likelihood_ratio_test model1 model2 name1 name2 w = Ok v w' → v = PyNone.
Proof.
  unfold likelihood_ratio_test, mbind, M_bind, bind, mret, M_ret, ret.
  destruct (getattr model2 "llf" w) as [llf2 w1|]; [|done].
  destruct (getattr model1 "llf" w1) as [llf1 w2|]; [|done].
  destruct (getattr model2 "df_model" w2) as [df2 w3|]; [|done].
  destruct (getattr model1 "df_model" w3) as [df1 w4|]; [|done].
  cbn. repeat case_match; cbn; congruence.
Qed.

Lemma likelihood_ratio_test_run (w : world) (model1 model2 : loc)
    (name1 name2 : string) (attrs1 attrs2 : gmap string float)
    (llf1 df1 llf2 df2 : float) :
  heap w !! model1 = Some (OModel attrs1) →
  heap w !! model2 = Some (OModel attrs2) →
  attrs1 !! "llf" = Some llf1 → attrs1 !! "df_model" = Some df1 →
  attrs2 !! "llf" = Some llf2 → attrs2 !! "df_model" = Some df2 →
  ∃ lines, likelihood_ratio_test model1 model2 (Some name1) (Some name2) w =
    Ok PyNone (after w (Effect [] lines [] None []))
    ∧ lines =
      [ [Text "Likelihood Ratio Test: '"; Text name1; Text "' vs. '";
         Text name2; Text "'"];
        [Text "→ LR Statistic: "; Fixed 2 (2 * (llf2 - llf1))%float];
        [Text "→ Degrees of Freedom: "; ShowFloat ((df2 + 1) - df1)%float];
        [Text "→ p-value: ";
         Fixed 5 (chi2_sf (2 * (llf2 - llf1))%float ((df2 + 1) - df1)%float)];
        if (chi2_sf (2 * (llf2 - llf1))%float ((df2 + 1) - df1)%float
            <? 0x1.999999999999ap-5)%float then
          [Text "→ '"; Text name2;
           Text "' significantly improves model fit over '";
           Text name1; Text "' (p < 0.05)."]
        else
          [Text "→ No significant improvement; '"; Text name1;
           Text "' is sufficient."] ].
Proof.
  intros H1 H2 Hllf1 Hdf1 Hllf2 Hdf2. eexists. split; [|reflexivity].
  apply run_from_start.
  unfold likelihood_ratio_test, no_effect. unfold_calls. simpl default.
  run_call; reflexivity.
Qed.

(** C1, evaluated: on fitted models with AIC 100.0 and 95.0 and the
    default names, [compare_models_aic] prints its three lines, the last
    one preferring the second model, and returns [None]; the dictionary
    its docstring announces is not the value returned. *)
Theorem compare_models_aic_returns_none :
  compare_models_aic 0 1 None None aic_models =
    Ok PyNone
       (World (heap aic_models)
              [ [Text "AIC - "; Text "Model 1"; Text ": "; Fixed 2 100%float];
                [Text "AIC - "; Text "Model 2"; Text ": "; Fixed 2 95%float];
                [Text "→ "; Text "Model 2"; Text " has a lower AIC and is preferred."] ]
              [] [] [])
  ∧ status (compare_models_aic 0 1 None None aic_models) ≠
      inr (PyDict [("Model 1", 100%float); ("Model 2", 95%float)]).
Proof. split; [reflexivity|]. by vm_compute. Qed.

(** C2, evaluated: on a restricted model (log-likelihood -500, df 3) and
    a full model (log-likelihood -490, df 4), [likelihood_ratio_test]
    returns [None], not the record with LR_statistic, degrees_of_freedom
    and p_value that its docstring announces. *)
Theorem likelihood_ratio_test_returns_none :
  status (likelihood_ratio_test 0 1 None None nested_models) = inr PyNone
  ∧ status (likelihood_ratio_test 0 1 None None nested_models) ≠
      inr (PyDict [("LR_statistic", 20%float); ("degrees_of_freedom", 2%float);
                   ("p_value", chi2_sf 20%float 2%float)]).
Proof.
  destruct (likelihood_ratio_test_run nested_models 0 1 "Model 1" "Model 2" _ _
              (-500)%float 3%float (-490)%float 4%float
              eq_refl eq_refl eq_refl eq_refl eq_refl eq_refl) as (lines & Hrun & _).
  change (likelihood_ratio_test 0 1 None None nested_models)
    with (likelihood_ratio_test 0 1 (Some "Model 1") (Some "Model 2") nested_models).
  by rewrite Hrun.
Qed.

(** C3: for fitted models whose log-likelihood and degrees of freedom can
    be read, [likelihood_ratio_test] computes
    LR = 2 * (model2.llf - model1.llf),
    df = (model2.df_model + 1) - model1.df_model and
    p = chi2.sf(LR, df); these are the three numbers of the report it
    prints (it returns [None]). *)
Theorem likelihood_ratio_test_statistics (w : world) (model1 model2 : loc)
    (name1 name2 : option string) (attrs1 attrs2 : gmap string float)
    (llf1 df1 llf2 df2 : float) :
  heap w !! model1 = Some (OModel attrs1) →
  heap w !! model2 = Some (OModel attrs2) →
  attrs1 !! "llf" = Some llf1 → attrs1 !! "df_model" = Some df1 →
  attrs2 !! "llf" = Some llf2 → attrs2 !! "df_model" = Some df2 →
  let lr_stat := (2 * (llf2 - llf1))%float in
  let df_diff := ((df2 + 1) - df1)%float in
  let p_value := chi2_sf lr_stat df_diff in
  let name1' := default "Model 1" name1 in
  let name2' := default "Model 2" name2 in
  likelihood_ratio_test model1 model2 name1 name2 w =
    Ok PyNone
       (World (heap w)
          (stdout w ++
           [ [Text "Likelihood Ratio Test: '"; Text name1'; Text "' vs. '";
              Text name2'; Text "'"];
             [Text "→ LR Statistic: "; Fixed 2 lr_stat];
             [Text "→ Degrees of Freedom: "; ShowFloat df_diff];
             [Text "→ p-value: "; Fixed 5 p_value];
             if (p_value <? 0x1.999999999999ap-5)%float then
               [Text "→ '"; Text name2';
                Text "' significantly improves model fit over '";
                Text name1'; Text "' (p < 0.05)."]
             else
               [Text "→ No significant improvement; '"; Text name1';
                Text "' is sufficient."] ])
          (figures w) (display w) (raised w)).
Proof.
  intros H1 H2 Hllf1 Hdf1 Hllf2 Hdf2 lr_stat df_diff p_value n1 n2.
  change (likelihood_ratio_test model1 model2 name1 name2 w)
    with (likelihood_ratio_test model1 model2 (Some n1) (Some n2) w).
  destruct (likelihood_ratio_test_run w model1 model2 n1 n2 _ _ _ _ _ _
              H1 H2 Hllf1 Hdf1 Hllf2 Hdf2) as (lines & -> & ->).
  by rewrite after_printed.
Qed.

(** C4: for a fitted model whose log-likelihood, null deviance and number
    of observations can be read, [compute_pseudo_r2] returns a new table
    of two rows, both tagged with the model name, holding
    r2ML = 1 - (llh_null / llf) with llh_null = null_deviance / -2 and
    r2CU = r2ML / (1 - (llh_null / nobs)). *)
Theorem compute_pseudo_r2_table (w : world) (model : loc)
    (model_name : option string) (attrs : gmap string float)
    (llf null_deviance nobs : float) :
  heap w !! model = Some (OModel attrs) →
  attrs !! "llf" = Some llf →
  attrs !! "null_deviance" = Some null_deviance →
  attrs !! "nobs" = Some nobs →
  let name := default "Model" model_name in
  let llh_null := (null_deviance / -2)%float in
  let r2_ml := (1 - (llh_null / llf))%float in
  let r2_cu := (r2_ml / (1 - (llh_null / nobs)))%float in
  compute_pseudo_r2 model model_name w =
    Ok (PyRef (length (heap w)))
       (World (heap w ++
                 [OFrame [ ("Model", plain [Str name; Str name]);
                           ("Metric", plain [Str "r2ML"; Str "r2CU"]);
                           ("Value", plain [Num r2_ml; Num r2_cu]) ]])
              (stdout w) (figures w) (display w) (raised w)).
Proof.
  intros Hm Hllf Hnd Hnobs name llh_null r2_ml r2_cu.
  apply run_from_start. rewrite <- after_created.
  unfold compute_pseudo_r2, no_effect. unfold_calls.
  fold name llh_null r2_ml r2_cu.
  run_call. by rewrite Nat.add_0_r.
Qed.

End regression_facts.

(** The report on the nested models of the example: LR = 20.0 on 2 degrees
    of freedom, significant. *)
Lemma likelihood_ratio_test_example :
  heap nested_models !! 0 =
    Some (OModel {["llf" := (-500)%float; "df_model" := 3%float]}) ∧
  @likelihood_ratio_test chi2_sf_at_example 0 1 None None nested_models =
    Ok PyNone
       (World (heap nested_models)
          [ [Text "Likelihood Ratio Test: '"; Text "Model 1"; Text "' vs. '";
             Text "Model 2"; Text "'"];
            [Text "→ LR Statistic: "; Fixed 2 20%float];
            [Text "→ Degrees of Freedom: "; ShowFloat 2%float];
            [Text "→ p-value: "; Fixed 5 0x1.7cd79b5647c9cp-15%float];
            [Text "→ '"; Text "Model 2";
             Text "' significantly improves model fit over '";
             Text "Model 1"; Text "' (p < 0.05)."] ]
          [] [] []).
Proof.
  split; [reflexivity|].
  exact (@likelihood_ratio_test_statistics chi2_sf_at_example nested_models 0 1
           None None _ _ (-500)%float 3%float (-490)%float 4%float
           eq_refl eq_refl eq_refl eq_refl eq_refl eq_refl).
Defined.

(** The table for the degenerate model of the example: r2ML = -0.25. *)
Lemma compute_pseudo_r2_example :
  heap degenerate_model !! 0 =
    Some (OModel {["null_deviance" := 200%float; "llf" := (-80)%float;
                   "nobs" := 50%float]}) ∧
  compute_pseudo_r2 0 None degenerate_model =
    Ok (PyRef 1)
       (World (heap degenerate_model ++
                 [OFrame [ ("Model", plain [Str "Model"; Str "Model"]);
                           ("Metric", plain [Str "r2ML"; Str "r2CU"]);
                           ("Value", plain [Num (-0.25)%float;
                                            Num (-0x1.5555555555555p-4)%float]) ]])
              [] [] [] []).
Proof.
  split; [reflexivity|].
  exact (compute_pseudo_r2_table degenerate_model 0 None _
           (-80)%float 200%float 50%float eq_refl eq_refl eq_refl eq_refl).
Defined.

(** ** Tables: grouping, categories, sorting *)

Lemma traverse_length {A B} (f : A → result B) (l : list A) (bs : list B) :
  traverse f l = inr bs → length bs = length l.
Proof.
  revert bs. induction l as [|a l IH]; intros bs; simpl.
  - by intros [= <-].
  - destruct (f a) as [e|b]; [done|].
    destruct (traverse f l) as [e|bs']; [done|].
    intros [= <-]. simpl. by rewrite (IH bs').
Qed.

Lemma get_column_head (name : string) (c : column) (fr : frame) :
  get_column ((name, c) :: fr) name = Some c.
Proof. simpl. by rewrite decide_True. Qed.

Lemma get_column_tail (name other : string) (c : column) (fr : frame) :
  other ≠ name → get_column ((other, c) :: fr) name = get_column fr name.
Proof. intros Hne. simpl. by rewrite decide_False. Qed.

(** Selecting one column. *)
Lemma getitem_cols_one (fr : frame) (name : string) :
  getitem_cols fr [name]
  = match get_column fr name with
    | Some c => inr [(name, c)]
    | None => inl (KeyError [name])
    end.
Proof.
  unfold getitem_cols. destruct (get_column fr name) as [c|] eqn:Hc.
  - rewrite filter_cons_False by (rewrite Hc; intros Hno; apply Hno; by eexists).
    cbn. by rewrite Hc.
  - rewrite filter_cons_True by (rewrite Hc; by intros [c Hsome]).
    by rewrite filter_nil.
Qed.

(** The table of a group-by over one key and one value column. *)
Lemma groupby_single_shape (agg : list cell → result cell) (fr g : frame)
    (key val : string) :
  groupby_agg agg fr [key] [val] = inr g →
  ∃ keys sums : list cell,
    g = [(key, plain keys); (val, plain sums)]
    ∧ key ≠ val ∧ length keys = length sums.
Proof.
  unfold groupby_agg. simpl traverse. rewrite getitem_cols_one.
  destruct (getitem fr key) as [e|kc]; [done|].
  destruct (get_column fr val) as [vc|]; [|done].
  cbn [fmap list_fmap snd].
  set (rows := filter _ _).
  destruct (traverse _ (group_keys rows.*1)) as [e|aggregated] eqn:Hagg; [done|].
  case_decide as Hnodup; [|done]. intros [= <-].
  eexists _, _. split; [reflexivity|]. split.
  - apply NoDup_cons in Hnodup as [Hnotin _]. set_solver.
  - rewrite !length_fmap. symmetry. by eapply traverse_length.
Qed.

(** Reading column [b] at the row numbers selected on column [a] gives
    the cells of [b] on the selected rows. *)
Lemma select_rows (P : cell → bool) (a b pre : list cell) :
  length a = length b →
  (λ i, nth_cell i (pre ++ b)) <$>
    (filter (λ r : cell * nat, P r.1) (zip a (seq (length pre) (length a)))).*2
  = (filter (λ r : cell * cell, P r.1) (zip a b)).*2.
Proof.
  revert b pre. induction a as [|x a IH]; intros [|y b] pre Hlen; try done.
  simpl in Hlen. injection Hlen as Hlen. cbn [length seq zip zip_with].
  assert (IH' := IH b (pre ++ [y]) Hlen).
  rewrite length_app, <- app_assoc in IH'. simpl in IH'.
  replace (length pre + 1) with (S (length pre)) in IH' by lia.
  destruct (P x) eqn:HP.
  - rewrite !filter_cons_True by (simpl; rewrite HP; simpl; tauto).
    rewrite !fmap_cons. f_equal; [|exact IH'].
    unfold nth_cell. simpl. by rewrite list_lookup_middle.
  - rewrite !filter_cons_False by (simpl; rewrite HP; simpl; tauto). exact IH'.
Qed.

Lemma select_rows_self (P : cell → bool) (a : list cell) :
  (λ i, nth_cell i a) <$>
    (filter (λ r : cell * nat, P r.1) (zip a (seq 0 (length a)))).*2
  = filter (λ c, P c) a.
Proof.
  etrans; [exact (select_rows P a a [] eq_refl)|].
  induction a as [|x a IH]; [done|].
  cbn [zip zip_with]. destruct (P x) eqn:HP.
  - rewrite !filter_cons_True by (simpl; rewrite HP; simpl; tauto).
    rewrite fmap_cons. by f_equal.
  - by rewrite !filter_cons_False by (simpl; rewrite HP; simpl; tauto).
Qed.

Lemma fmap_bind_list {A B C} (f : B → C) (g : A → list B) (l : list A) :
  f <$> (l ≫= g) = l ≫= (λ a, f <$> g a).
Proof.
  induction l as [|a l IH]; [done|].
  by rewrite !bind_cons, fmap_app, IH.
Qed.

(** The cells of a categorical column, and of a companion column, in
    sorted order. *)
Lemma category_order_self (cats : list string) (cs : list cell) :
  (λ i, nth_cell i cs) <$> category_order cats cs
  = (cats ≫= λ cat, filter (λ c, is_category cat c) cs)
    ++ filter (λ c, isna c) cs.
Proof.
  unfold category_order. rewrite fmap_app, fmap_bind_list. f_equal.
  - induction cats as [|cat cats IH]; [done|].
    rewrite !bind_cons. f_equal; [|done].
    exact (select_rows_self (is_category cat) cs).
  - exact (select_rows_self isna cs).
Qed.

Lemma category_order_other (cats : list string) (cs vs : list cell) :
  length cs = length vs →
  (λ i, nth_cell i vs) <$> category_order cats cs
  = (cats ≫= λ cat, (filter (λ r : cell * cell, is_category cat r.1) (zip cs vs)).*2)
    ++ (filter (λ r : cell * cell, isna r.1) (zip cs vs)).*2.
Proof.
  intros Hlen. unfold category_order. rewrite fmap_app, fmap_bind_list. f_equal.
  - induction cats as [|cat cats IH]; [done|].
    rewrite !bind_cons. f_equal; [|done].
    exact (select_rows (is_category cat) cs vs [] Hlen).
  - exact (select_rows isna cs vs [] Hlen).
Qed.

(** ** plot_accidents_by_day *)

Lemma to_category_listed (cats : list string) (c : cell) :
  to_category cats c = if listed cats c then c else NA.
Proof.
  destruct c as [s| |]; simpl; try done.
  destruct (decide (s ∈ cats)).
  - by rewrite bool_decide_eq_true_2.
  - by rewrite bool_decide_eq_false_2.
Qed.

Lemma isna_to_category (cats : list string) (c : cell) :
  isna (to_category cats c) = negb (listed cats c).
Proof.
  rewrite to_category_listed.
  destruct c as [s| |]; simpl; try done. by destruct (bool_decide _).
Qed.

Lemma is_category_to_category (cats : list string) (cat : string) (c : cell) :
  cat ∈ cats → is_category cat (to_category cats c) = is_category cat c.
Proof.
  intros Hcat. destruct c as [s| |]; simpl; try done.
  destruct (decide (s ∈ cats)) as [|Hs]; [done|]. simpl.
  symmetry. apply bool_decide_eq_false_2. by intros ->.
Qed.

Lemma missing_categories (cats : list string) (keys : list cell) :
  filter (λ c, isna c) (to_category cats <$> keys)
  = replicate (length (filter (λ c, negb (listed cats c)) keys)) NA.
Proof.
  induction keys as [|k keys IH]; [done|].
  rewrite fmap_cons, !filter_cons, isna_to_category, to_category_listed.
  destruct (listed cats k); simpl; by rewrite IH.
Qed.

Lemma category_rows (cats : list string) (cat : string) (keys : list cell) :
  cat ∈ cats →
  filter (λ c, is_category cat c) (to_category cats <$> keys)
  = filter (λ c, is_category cat c) keys.
Proof.
  intros Hcat. induction keys as [|k keys IH]; [done|].
  rewrite fmap_cons, !filter_cons, is_category_to_category by done.
  destruct (is_category cat k) eqn:Hk; simpl; rewrite IH; [|done].
  f_equal. rewrite to_category_listed.
  destruct k as [s| |]; try done. simpl in *.
  apply bool_decide_eq_true_1 in Hk as ->. by rewrite bool_decide_eq_true_2.
Qed.

Lemma zip_to_category (P : cell → bool) (cats : list string) (keys sums : list cell) :
  (filter (λ r : cell * cell, P r.1) (zip (to_category cats <$> keys) sums)).*2
  = (filter (λ r : cell * cell, P (to_category cats r.1)) (zip keys sums)).*2.
Proof.
  revert sums. induction keys as [|k keys IH]; intros [|v sums]; try done.
  cbn [fmap list_fmap zip zip_with]. rewrite !filter_cons. simpl.
  destruct (P (to_category cats k)); simpl; by rewrite <- IH.
Qed.

Lemma bind_ext_in {A B} (f g : A → list B) (l : list A) :
  (∀ a, a ∈ l → f a = g a) → l ≫= f = l ≫= g.
Proof.
  induction l as [|a l IH]; intros Hfg; [done|].
  rewrite !bind_cons, Hfg, IH; [done| |by left].
  intros b Hb. apply Hfg. by right.
Qed.

Lemma filter_pair_ext {A} (P Q : A → bool) (l : list A) :
  (∀ a, P a = Q a) → filter (λ a, P a) l = filter (λ a, Q a) l.
Proof.
  intros HPQ. induction l as [|a l IH]; [done|].
  rewrite !filter_cons, IH, HPQ. by destruct (Q a).
Qed.

Lemma listed_categories (cats : list string) (keys : list cell) :
  Forall (λ c, ∃ s, c = Str s ∧ s ∈ cats)
         (cats ≫= λ cat, filter (λ c, is_category cat c) keys).
Proof.
  apply Forall_forall. intros c Hc.
  apply list_elem_of_bind in Hc as (cat & Hc & Hcat).
  apply list_elem_of_filter in Hc as [Hc _].
  destruct c as [s| |]; try done. simpl in Hc.
  apply Is_true_true, bool_decide_eq_true_1 in Hc as ->. by exists cat.
Qed.

Lemma length_bind_filter (cats : list string) (keys sums : list cell) :
  length keys = length sums →
  length (cats ≫= λ cat, filter (λ c, is_category cat c) keys)
  = length (cats ≫= λ cat,
      (filter (λ r : cell * cell, is_category cat r.1) (zip keys sums)).*2).
Proof.
  intros Hlen. induction cats as [|cat cats IH]; [done|].
  rewrite !bind_cons, !length_app, IH. f_equal.
  rewrite length_fmap. clear IH.
  revert sums Hlen. induction keys as [|k keys IH]; intros [|v sums] Hlen; try done.
  cbn [zip zip_with]. rewrite !filter_cons. simpl.
  destruct (is_category cat k); simpl; rewrite (IH sums); auto.
Qed.

Section by_day.
Context `{GroupBy} `{Pandas}.

(** The chart of [plot_accidents_by_day], from the grouped table. *)
Lemma plot_accidents_by_day_chart (w : world) (df : loc) (fr : frame)
    (day_col value_col : string) (title xlabel ylabel : option string)
    (day_order : option (list string)) (keys sums : list cell) :
  let order := default canonical_days day_order in
  heap w !! df = Some (OFrame fr) →
  groupby_agg agg_sum fr [day_col] [value_col]
    = inr [(day_col, plain keys); (value_col, plain sums)] →
  day_col ≠ value_col → length keys = length sums →
  NoDup order →
  ∃ w', plot_accidents_by_day df day_col value_col title xlabel ylabel day_order w
        = Ok PyNone w'
    ∧ display w' = display w ++ reverse (figures w) ++
        [ Chart "bar"
            [ (day_col,
               Column (Some order)
                 ((order ≫= λ cat, filter (λ c, is_category cat c) keys)
                  ++ replicate
                       (length (filter (λ c, negb (listed order c)) keys)) NA));
              (value_col,
               plain
                 ((order ≫= λ cat,
                    (filter (λ r : cell * cell, is_category cat r.1)
                            (zip keys sums)).*2)
                  ++ (filter (λ r : cell * cell, negb (listed order r.1))
                             (zip keys sums)).*2)) ]
            day_col value_col
            (default "Number of Accidents per Day of the Week" title)
            (default "Day of the Week" xlabel)
            (default "Total Number of Accidents" ylabel) ].
Proof.
  intros order Hdf Hg Hne Hlen Hnodup.
  eexists. split.
  - apply run_from_start.
    unfold plot_accidents_by_day, no_effect. unfold_calls.
    replace (match day_order with Some o => o | None => _ end) with order
      by (by destruct day_order).
    rewrite load_caller, Hdf. cbv beta iota. rewrite Hg.
    repeat step.
    unfold getitem. rewrite get_column_head. repeat step.
    unfold Categorical. rewrite decide_True by done. repeat step.
    cbn [set_column]. rewrite decide_True by done.
    unfold sort_values, getitem. rewrite get_column_head.
    cbn [categories]. repeat step. reflexivity.
  - cbn [after display shown]. do 2 f_equal. cbn [reverse rev_append].
    unfold take_rows. cbn [fmap list_fmap fst snd categories cells plain].
    rewrite category_order_self.
    rewrite category_order_other by (by rewrite length_fmap).
    rewrite missing_categories.
    rewrite (bind_ext_in _ (λ cat, filter (λ c, is_category cat c) keys))
      by (intros cat Hcat; by apply category_rows).
    rewrite (zip_to_category isna).
    rewrite (filter_pair_ext (λ r : cell * cell, isna (to_category order r.1))
               (λ r, negb (listed order r.1)))
      by (intros r; apply isna_to_category).
    rewrite (bind_ext_in
               (λ cat, (filter (λ r : cell * cell, is_category cat r.1)
                               (zip (to_category order <$> keys) sums)).*2)
               (λ cat, (filter (λ r : cell * cell, is_category cat r.1)
                               (zip keys sums)).*2)); [done|].
    intros cat Hcat. rewrite (zip_to_category (is_category cat)).
    f_equal. apply filter_pair_ext. intros r.
    by apply is_category_to_category.
Qed.

End by_day.

Lemma length_filter_zip (P : cell → bool) (keys sums : list cell) :
  length keys = length sums →
  length (filter (λ r : cell * cell, P r.1) (zip keys sums)).*2
  = length (filter (λ c, P c) keys).
Proof.
  rewrite length_fmap.
  revert sums. induction keys as [|k keys IH]; intros [|v sums] Hlen; try done.
  cbn [zip zip_with]. rewrite !filter_cons. simpl.
  destruct (P k); simpl; rewrite (IH sums); auto.
Qed.

Section by_day_order.
Context `{GroupBy} `{Pandas}.

(** C8: the order of the bars of [plot_accidents_by_day] is the caller's
    [day_order]; leaving it out is the same as passing the canonical list
    Lundi ... Dimanche.  When the grouping succeeds and the labels of
    [day_order] are distinct, the chart shows, label by label in the
    order of [day_order], the grouped row of that label, before any
    other row. *)
Theorem day_order_sets_the_sort_order (w : world) (df : loc) (fr g : frame)
    (day_col value_col : string) (title xlabel ylabel : option string)
    (day_order : option (list string)) :
  let order := default canonical_days day_order in
  heap w !! df = Some (OFrame fr) →
  groupby_agg agg_sum fr [day_col] [value_col] = inr g →
  NoDup order →
  plot_accidents_by_day df day_col value_col title xlabel ylabel None w
  = plot_accidents_by_day df day_col value_col title xlabel ylabel
      (Some canonical_days) w
  ∧ ∃ (keys sums other_days other_sums : list cell) (w' : world),
      g = [(day_col, plain keys); (value_col, plain sums)]
      ∧ plot_accidents_by_day df day_col value_col title xlabel ylabel day_order w
        = Ok PyNone w'
      ∧ display w' = display w ++ reverse (figures w) ++
          [ Chart "bar"
              [ (day_col,
                 Column (Some order)
                   ((order ≫= λ cat, filter (λ c, is_category cat c) keys)
                    ++ other_days));
                (value_col,
                 plain
                   ((order ≫= λ cat,
                      (filter (λ r : cell * cell, is_category cat r.1)
                              (zip keys sums)).*2)
                    ++ other_sums)) ]
              day_col value_col
              (default "Number of Accidents per Day of the Week" title)
              (default "Day of the Week" xlabel)
              (default "Total Number of Accidents" ylabel) ].
Proof.
  intros order Hdf Hg Hnodup. split; [reflexivity|].
  destruct (groupby_single_shape _ _ _ _ _ Hg) as (keys & sums & -> & Hne & Hlen).
  destruct (plot_accidents_by_day_chart w df fr day_col value_col title xlabel
              ylabel day_order keys sums Hdf Hg Hne Hlen Hnodup)
    as (w' & Hrun & Hdisplay).
  by eexists keys, sums, _, _, w'.
Qed.

(** C10: a day label of the grouped table that is not in [day_order]
    (given or default) is not an error.  When the grouping succeeds and
    the labels of [day_order] are distinct, [plot_accidents_by_day]
    returns; in its chart the rows of the listed labels come first, and
    the rows of the other labels follow them, each with a missing
    category and its aggregated value, in the order of the grouped
    table. *)
Theorem unlisted_days_are_sorted_last (w : world) (df : loc) (fr g : frame)
    (day_col value_col : string) (title xlabel ylabel : option string)
    (day_order : option (list string)) :
  let order := default canonical_days day_order in
  heap w !! df = Some (OFrame fr) →
  groupby_agg agg_sum fr [day_col] [value_col] = inr g →
  NoDup order →
  ∃ (keys sums listed_days listed_sums : list cell) (w' : world),
    let unlisted_sums :=
      (filter (λ r : cell * cell, negb (listed order r.1)) (zip keys sums)).*2 in
    g = [(day_col, plain keys); (value_col, plain sums)]
    ∧ plot_accidents_by_day df day_col value_col title xlabel ylabel day_order w
      = Ok PyNone w'
    ∧ display w' = display w ++ reverse (figures w) ++
        [ Chart "bar"
            [ (day_col,
               Column (Some order)
                 (listed_days ++ replicate (length unlisted_sums) NA));
              (value_col, plain (listed_sums ++ unlisted_sums)) ]
            day_col value_col
            (default "Number of Accidents per Day of the Week" title)
            (default "Day of the Week" xlabel)
            (default "Total Number of Accidents" ylabel) ]
    ∧ Forall (λ c, ∃ s, c = Str s ∧ s ∈ order) listed_days
    ∧ length listed_days = length listed_sums.
Proof.
  intros order Hdf Hg Hnodup.
  destruct (groupby_single_shape _ _ _ _ _ Hg) as (keys & sums & -> & Hne & Hlen).
  destruct (plot_accidents_by_day_chart w df fr day_col value_col title xlabel
              ylabel day_order keys sums Hdf Hg Hne Hlen Hnodup)
    as (w' & Hrun & Hdisplay).
  eexists keys, sums, _, _, w'. split_and!; [done|done| | |].
  - rewrite Hdisplay. by rewrite (length_filter_zip (λ c, negb (listed order c))).
  - apply listed_categories.
  - by apply length_bind_filter.
Qed.

End by_day_order.

(** The chart of the week with holidays, default order: Lundi, Samedi and
    Dimanche in the canonical order, then the sum of the two "Ferie" rows
    under a missing category. *)
Lemma holiday_chart :
  display (final (@plot_accidents_by_day left_to_right pandas_unavailable
                    0 "Jour" "Accidents" None None None None holiday_world))
  = [ Chart "bar"
        [ ("Jour", Column (Some canonical_days)
                     [Str "Lundi"; Str "Samedi"; Str "Dimanche"; NA]);
          ("Accidents", plain [Num 5; Num 10; Num 20; Num 8]) ]
        "Jour" "Accidents" "Number of Accidents per Day of the Week"
        "Day of the Week" "Total Number of Accidents" ].
Proof. by vm_compute. Qed.

Lemma canonical_days_distinct : NoDup canonical_days.
Proof. compute_done. Qed.

Lemma custom_order_on_holiday_week :
  (heap holiday_world !! 0 = Some (OFrame week_with_holidays)
   ∧ @groupby_agg (@agg_sum left_to_right) week_with_holidays ["Jour"] ["Accidents"]
     = inr [ ("Jour", plain [Str "Dimanche"; Str "Ferie"; Str "Lundi"; Str "Samedi"]);
             ("Accidents", plain [Num 20; Num 8; Num 5; Num 10]) ]
   ∧ NoDup ["Samedi"; "Dimanche"; "Lundi"])
  ∧ ∃ (keys sums other_days other_sums : list cell) (w' : world),
      [ ("Jour", plain [Str "Dimanche"; Str "Ferie"; Str "Lundi"; Str "Samedi"]);
        ("Accidents", plain [Num 20; Num 8; Num 5; Num 10]) ]
      = [("Jour", plain keys); ("Accidents", plain sums)]
      ∧ @plot_accidents_by_day left_to_right pandas_unavailable 0 "Jour" "Accidents"
          None None None (Some ["Samedi"; "Dimanche"; "Lundi"]) holiday_world
        = Ok PyNone w'
      ∧ display w' = display holiday_world ++ reverse (figures holiday_world) ++
          [ Chart "bar"
              [ ("Jour",
                 Column (Some ["Samedi"; "Dimanche"; "Lundi"])
                   ((["Samedi"; "Dimanche"; "Lundi"] ≫=
                       λ cat, filter (λ c, is_category cat c) keys)
                    ++ other_days));
                ("Accidents",
                 plain
                   ((["Samedi"; "Dimanche"; "Lundi"] ≫= λ cat,
                      (filter (λ r : cell * cell, is_category cat r.1)
                              (zip keys sums)).*2)
                    ++ other_sums)) ]
              "Jour" "Accidents"
              "Number of Accidents per Day of the Week"
              "Day of the Week" "Total Number of Accidents" ].
Proof.
  assert (NoDup ["Samedi"; "Dimanche"; "Lundi"]) as Hnodup by compute_done.
  split; [split_and!; [reflexivity|by vm_compute|exact Hnodup]|].
  exact (proj2 (@day_order_sets_the_sort_order left_to_right pandas_unavailable
           holiday_world 0 week_with_holidays _ "Jour" "Accidents" None None None
           (Some ["Samedi"; "Dimanche"; "Lundi"]) eq_refl eq_refl Hnodup)).
Defined.

Lemma default_order_on_holiday_week :
  (heap holiday_world !! 0 = Some (OFrame week_with_holidays)
   ∧ @groupby_agg (@agg_sum left_to_right) week_with_holidays ["Jour"] ["Accidents"]
     = inr [ ("Jour", plain [Str "Dimanche"; Str "Ferie"; Str "Lundi"; Str "Samedi"]);
             ("Accidents", plain [Num 20; Num 8; Num 5; Num 10]) ]
   ∧ NoDup canonical_days)
  ∧ ∃ (keys sums listed_days listed_sums : list cell) (w' : world),
      [ ("Jour", plain [Str "Dimanche"; Str "Ferie"; Str "Lundi"; Str "Samedi"]);
        ("Accidents", plain [Num 20; Num 8; Num 5; Num 10]) ]
      = [("Jour", plain keys); ("Accidents", plain sums)]
      ∧ @plot_accidents_by_day left_to_right pandas_unavailable 0 "Jour" "Accidents"
          None None None None holiday_world
        = Ok PyNone w'
      ∧ display w' = display holiday_world ++ reverse (figures holiday_world) ++
          [ Chart "bar"
              [ ("Jour",
                 Column (Some canonical_days)
                   (listed_days ++
                    replicate
                      (length (filter (λ r : cell * cell,
                                         negb (listed canonical_days r.1))
                                      (zip keys sums)).*2) NA));
                ("Accidents",
                 plain
                   (listed_sums ++
                    (filter (λ r : cell * cell, negb (listed canonical_days r.1))
                            (zip keys sums)).*2)) ]
              "Jour" "Accidents"
              "Number of Accidents per Day of the Week"
              "Day of the Week" "Total Number of Accidents" ]
      ∧ Forall (λ c, ∃ s, c = Str s ∧ s ∈ canonical_days) listed_days
      ∧ length listed_days = length listed_sums.
Proof.
  split; [split_and!; [reflexivity|by vm_compute|exact canonical_days_distinct]|].
  exact (@unlisted_days_are_sorted_last left_to_right pandas_unavailable
           holiday_world 0 week_with_holidays _ "Jour" "Accidents" None None None
           None eq_refl eq_refl canonical_days_distinct).
Defined.

(** ** plot_avg_accidents_weekday_vs_weekend: the two stages *)

Lemma string_compare_refl (s : string) : String.compare s s = Eq.
Proof.
  pose proof (String.compare_antisym s s) as Hs.
  by destruct (String.compare s s).
Qed.

Lemma day_type_listed (weekend_days : list string) (d : cell) :
  day_type weekend_days d
  = Str (if listed weekend_days d then "Weekend" else "Weekday").
Proof.
  destruct d as [s| |]; simpl; try done.
  destruct (decide (s ∈ weekend_days)).
  - by rewrite bool_decide_eq_true_2.
  - by rewrite bool_decide_eq_false_2.
Qed.

Lemma cell_compare_listed (cats : list string) (d d' : cell) :
  cell_compare d d' = Eq → listed cats d = listed cats d'.
Proof.
  destruct d as [s|x|], d' as [s'|x'|]; simpl; try done.
  by intros ->%String.compare_eq_iff.
Qed.

Lemma key_compare_day (weekend_days : list string) (d d' : cell) :
  key_compare [d; day_type weekend_days d] [d'; day_type weekend_days d']
  = cell_compare d d'.
Proof.
  cbn [key_compare]. destruct (cell_compare d d') eqn:Hdd; try done.
  rewrite !day_type_listed, (cell_compare_listed _ _ _ Hdd). simpl.
  by rewrite string_compare_refl.
Qed.

Lemma insert_key_embed (e : cell → list cell) (d : cell) (ds : list cell) :
  (∀ a b, key_compare (e a) (e b) = cell_compare a b) →
  insert_key (e d) (e <$> ds) = e <$> insert_day d ds.
Proof.
  intros He. induction ds as [|d' ds IH]; [done|].
  cbn [fmap list_fmap insert_key insert_day]. rewrite He.
  destruct (cell_compare d d'); try done.
  by rewrite fmap_cons, <- IH.
Qed.

Lemma group_keys_embed (e : cell → list cell) (ds : list cell) :
  (∀ a b, key_compare (e a) (e b) = cell_compare a b) →
  group_keys (e <$> ds) = e <$> fold_left (λ acc d, insert_day d acc) ds [].
Proof.
  intros He. unfold group_keys.
  change (@nil (list cell)) with (e <$> @nil cell) at 1.
  generalize (@nil cell) as acc.
  induction ds as [|d ds IH]; intros acc; [done|].
  cbn [fmap list_fmap fold_left]. by rewrite insert_key_embed, IH.
Qed.

(** Rows of a table with one or two key columns. *)
Lemma transpose_one (cs : list cell) :
  transpose (length cs) [cs] = (λ c, [c]) <$> cs.
Proof.
  cbn [transpose]. induction cs as [|c cs IH]; [done|].
  cbn [length replicate zip_with]. by rewrite IH.
Qed.

Lemma transpose_two (f : cell → cell) (cs : list cell) :
  transpose (length cs) [cs; f <$> cs] = (λ c, [c; f c]) <$> cs.
Proof.
  cbn [transpose].
  assert (zip_with cons (f <$> cs) (replicate (length cs) [])
          = (λ c, [f c]) <$> cs) as ->.
  { induction cs as [|c cs IH]; [done|].
    cbn [length replicate fmap list_fmap zip_with]. by rewrite IH. }
  induction cs as [|c cs IH]; [done|].
  cbn [fmap list_fmap zip_with]. by rewrite IH.
Qed.

Lemma get_column_set_column (fr : frame) (name : string) (c : column) :
  get_column (set_column fr name c) name = Some c.
Proof.
  induction fr as [|[n c'] fr IH]; simpl.
  - by rewrite decide_True.
  - destruct (decide (n = name)) as [->|Hne]; simpl.
    + by rewrite decide_True.
    + by rewrite decide_False.
Qed.

Lemma get_column_set_column_ne (fr : frame) (name other : string) (c : column) :
  other ≠ name →
  get_column (set_column fr name c) other = get_column fr other.
Proof.
  intros Hne. induction fr as [|[n c'] fr IH]; simpl.
  - by rewrite decide_False.
  - destruct (decide (n = name)) as [->|Hn]; simpl.
    + by rewrite !decide_False.
    + by rewrite IH.
Qed.

Lemma nrows_set_column (fr : frame) (name : string) (c : column) :
  fr ≠ [] → length (cells c) = nrows fr →
  nrows (set_column fr name c) = nrows fr.
Proof.
  destruct fr as [|[n c'] fr]; [done|]. intros _ Hlen. simpl in *.
  by destruct (decide (n = name)).
Qed.

Lemma traverse_ext {A B} (f g : A → result B) (l : list A) :
  (∀ a, f a = g a) → traverse f l = traverse g l.
Proof.
  intros Hfg. induction l as [|a l IH]; [done|]. simpl. by rewrite Hfg, IH.
Qed.

Lemma traverse_fmap {A B C} (f : B → result C) (g : A → B) (l : list A) :
  traverse f (g <$> l) = traverse (λ a, f (g a)) l.
Proof.
  induction l as [|a l IH]; [done|]. cbn [fmap list_fmap traverse].
  by rewrite IH.
Qed.

(** A traversal whose results are wrapped one by one. *)
Lemma traverse_wrap {A B C} (f : A → result B) (h : B → C) (l : list A) :
  traverse (λ a, match f a with inl e => inl e | inr b => inr (h b) end) l
  = match traverse f l with inl e => inl e | inr bs => inr (h <$> bs) end.
Proof.
  induction l as [|a l IH]; [done|]. cbn [traverse]. rewrite IH.
  destruct (f a); [done|]. by destruct (traverse f l).
Qed.

Lemma zip_fmap_fst_filter {A B} (P : A * B → bool) (f : A → list cell)
    (g : B → list cell) (Q : list cell * list cell → bool)
    (xs : list A) (ys : list B) :
  (∀ x y, Q (f x, g y) = P (x, y)) →
  filter (λ r, Q r) (zip (f <$> xs) (g <$> ys))
  = prod_map f g <$> filter (λ r, P r) (zip xs ys).
Proof.
  intros HQ. revert ys. induction xs as [|x xs IH]; intros [|y ys]; try done.
  cbn [fmap list_fmap zip zip_with]. rewrite !filter_cons, HQ.
  destruct (P (x, y)); simpl; by rewrite <- IH.
Qed.

Lemma fst_filter_zip (P : cell → bool) (days values : list cell) :
  length days = length values →
  (filter (λ r : cell * cell, P r.1) (zip days values)).*1
  = filter (λ d, P d) days.
Proof.
  revert values. induction days as [|d days IH]; intros [|v values] Hlen; try done.
  injection Hlen as Hlen. cbn [zip zip_with]. destruct (P d) eqn:HP.
  - rewrite !filter_cons_True by (simpl; rewrite HP; simpl; tauto).
    by rewrite fmap_cons, (IH values Hlen).
  - rewrite !filter_cons_False by (simpl; rewrite HP; simpl; tauto).
    by apply IH.
Qed.

Lemma NoDup_two (a b : string) : a ≠ b → NoDup [a; b].
Proof.
  intros Hab. apply NoDup_cons. split; [|apply NoDup_singleton].
  by intros ->%list_elem_of_singleton.
Qed.

Lemma NoDup_three (a b c : string) : a ≠ b → a ≠ c → b ≠ c → NoDup [a; b; c].
Proof.
  intros Hab Hac Hbc. apply NoDup_cons. split; [|by apply NoDup_two].
  intros [->|[->|[]%elem_of_nil]%elem_of_cons]%elem_of_cons; done.
Qed.

Lemma filter_fmap_bool {A B} (P : B → bool) (f : A → B) (l : list A) :
  filter (λ b, P b) (f <$> l) = f <$> filter (λ a, P (f a)) l.
Proof.
  induction l as [|a l IH]; [done|].
  rewrite fmap_cons, !filter_cons, IH. by destruct (P (f a)).
Qed.

Lemma snd_filter_zip_fmap (P : cell → bool) (f : cell → cell)
    (days values : list cell) :
  (filter (λ r : cell * cell, P r.1) (zip (f <$> days) values)).*2
  = (filter (λ r : cell * cell, P (f r.1)) (zip days values)).*2.
Proof.
  revert values. induction days as [|d days IH]; intros [|v values]; try done.
  cbn [fmap list_fmap zip zip_with]. destruct (P (f d)) eqn:HP.
  - rewrite !filter_cons_True by (simpl; rewrite HP; simpl; tauto).
    rewrite !fmap_cons. f_equal. apply IH.
  - rewrite !filter_cons_False by (simpl; rewrite HP; simpl; tauto). apply IH.
Qed.

Lemma fmap_id_ext {A} (f : A → A) (l : list A) :
  (∀ a, f a = a) → f <$> l = l.
Proof.
  intros Hf. induction l as [|a l IH]; [done|]. by rewrite fmap_cons, Hf, IH.
Qed.

Lemma existsb_ext_bool {A} (P Q : A → bool) (l : list A) :
  (∀ a, P a = Q a) → existsb P l = existsb Q l.
Proof.
  intros HPQ. induction l as [|a l IH]; [done|]. simpl. by rewrite HPQ, IH.
Qed.

Lemma is_weekday_label (weekend_days : list string) (d : cell) :
  is_category "Weekday" (day_type weekend_days d) = negb (listed weekend_days d).
Proof. rewrite day_type_listed. by destruct (listed weekend_days d). Qed.

Lemma is_weekend_label (weekend_days : list string) (d : cell) :
  is_category "Weekend" (day_type weekend_days d) = listed weekend_days d.
Proof. rewrite day_type_listed. by destruct (listed weekend_days d). Qed.

(** The groups of the second stage: the labels present, Weekday first. *)
Lemma weekday_weekend_keys (weekend_days : list string) (days : list cell) :
  group_keys ((λ c, [c]) <$> (day_type weekend_days <$> days))
  = (λ label, [Str label]) <$> day_types_present weekend_days days.
Proof.
  set (keys_of := λ a b : bool,
         (if a then [[Str "Weekday"]] else []) ++
         (if b then [[Str "Weekend"]] else [])).
  assert (∀ ds a b,
    fold_left (λ acc k, insert_key k acc)
      ((λ c, [c]) <$> (day_type weekend_days <$> ds)) (keys_of a b)
    = keys_of (a || existsb (λ d, negb (listed weekend_days d)) ds)
              (b || existsb (listed weekend_days) ds)) as Hfold.
  { induction ds as [|d ds IH]; intros a b.
    - by rewrite !orb_false_r.
    - cbn [fmap list_fmap fold_left existsb]. rewrite day_type_listed.
      destruct (listed weekend_days d); cbn [negb orb].
      + replace (insert_key [Str "Weekend"] (keys_of a b)) with (keys_of a true)
          by (by destruct a, b).
        rewrite IH. by rewrite orb_true_r.
      + replace (insert_key [Str "Weekday"] (keys_of a b)) with (keys_of true b)
          by (by destruct a, b).
        rewrite IH. by rewrite orb_true_r. }
  unfold group_keys. change (@nil (list cell)) with (keys_of false false).
  rewrite Hfold. cbn [orb].
  unfold day_types_present. rewrite !filter_cons, filter_nil.
  rewrite (existsb_ext_bool _ _ days (is_weekday_label weekend_days)).
  rewrite (existsb_ext_bool _ _ days (is_weekend_label weekend_days)).
  subst keys_of. cbv beta.
  by destruct (existsb (λ d, negb (listed weekend_days d)) days),
              (existsb (listed weekend_days) days).
Qed.

Section stages.
Context `{GroupBy}.

Lemma aggregate_one (agg : list cell → result cell)
    (rows : list (list cell * list cell)) (g : list cell) :
  aggregate agg 1 rows g
  = match agg (nth_cell 0 <$> (group_rows g rows).*2) with
    | inl e => inl e
    | inr v => inr [v]
    end.
Proof. unfold aggregate. cbn [seq traverse]. by destruct (agg _). Qed.

Lemma group_values (e : cell → list cell) (P : cell → bool) (g : list cell)
    (rows : list (cell * cell)) :
  (∀ d, same_key (e d) g = P d) →
  nth_cell 0 <$> (group_rows g (prod_map e (λ v, [v]) <$> rows)).*2
  = (filter (λ r : cell * cell, P r.1) rows).*2.
Proof.
  intros He. unfold group_rows.
  rewrite (filter_fmap_bool (λ r : list cell * list cell, same_key r.1 g)).
  rewrite <- !list_fmap_compose.
  rewrite (filter_pair_ext _ (λ r : cell * cell, P r.1)) by (intros [d v]; apply He).
  apply list_fmap_ext. by intros i [d v] _.
Qed.

Lemma stage_one (fr : frame) (day_col value_col binary_col : string)
    (weekend_days : list string) (dc vc : column) :
  get_column fr day_col = Some dc →
  get_column fr value_col = Some vc →
  length (cells dc) = nrows fr → length (cells vc) = nrows fr →
  day_col ≠ value_col → binary_col ≠ day_col → binary_col ≠ value_col →
  groupby_agg agg_sum
    (set_column fr binary_col (plain (day_type weekend_days <$> cells dc)))
    [day_col; binary_col] [value_col]
  = match day_sums (cells dc) (cells vc) with
    | inl e => inl e
    | inr sums =>
        inr [ (day_col, plain (exact_days (cells dc)));
              (binary_col, plain (day_type weekend_days <$> exact_days (cells dc)));
              (value_col, plain sums) ]
    end.
Proof.
  intros Hdc Hvc Hd Hv Hdv Hbd Hbv.
  set (days := cells dc). set (values := cells vc).
  set (e2 := λ d : cell, [d; day_type weekend_days d]).
  unfold groupby_agg. cbn [traverse]. rewrite getitem_cols_one. unfold getitem.
  rewrite get_column_set_column_ne, get_column_set_column by done.
  rewrite get_column_set_column_ne by done. rewrite Hdc, Hvc.
  rewrite nrows_set_column; [|by intros ->|by cbn [cells plain]; rewrite length_fmap].
  cbn [fmap list_fmap cells plain snd]. fold days values.
  replace (transpose (nrows fr) [days; day_type weekend_days <$> days])
    with (e2 <$> days) by (by rewrite <- Hd, transpose_two).
  replace (transpose (nrows fr) [values]) with ((λ v, [v]) <$> values)
    by (by rewrite <- Hv, transpose_one).
  rewrite (zip_fmap_fst_filter (λ r : cell * cell, negb (isna r.1)) e2 (λ v, [v])
             (λ r, forallb (λ c, negb (isna c)) r.1)); last first.
  { intros x y. subst e2. simpl. rewrite day_type_listed. simpl.
    by rewrite andb_true_r. }
  set (rows := filter _ (zip days values)).
  assert ((prod_map e2 (λ v : cell, [v]) <$> rows).*1
          = e2 <$> filter (λ d, negb (isna d)) days) as ->.
  { rewrite <- list_fmap_compose.
    rewrite <- (fst_filter_zip (λ d, negb (isna d)) days values)
      by (unfold days, values; congruence).
    by rewrite <- list_fmap_compose. }
  rewrite (group_keys_embed e2) by (intros a b; apply key_compare_day).
  fold (exact_days days). rewrite traverse_fmap.
  rewrite (traverse_ext _ (λ d, match day_sum days values d with
                                | inl e => inl e
                                | inr s => inr [s]
                                end)); last first.
  { intros d. rewrite aggregate_one.
    rewrite (group_values e2 (λ a, same_day a d)); [done|].
    intros a. unfold same_key, same_day. subst e2. cbv beta.
    by rewrite key_compare_day. }
  rewrite traverse_wrap. fold (day_sums days values).
  destruct (day_sums days values) as [e|sums]; [done|].
  rewrite decide_True by (by apply NoDup_three).
  cbn [imap app]. unfold compose at 1. cbv beta.
  rewrite <- !list_fmap_compose.
  rewrite (fmap_id_ext (nth_cell 0 ∘ e2)) by done.
  rewrite (fmap_id_ext (nth_cell 0 ∘ (λ b : cell, [b]))) by done.
  reflexivity.
Qed.

Lemma stage_two (day_col value_col binary_col : string)
    (weekend_days : list string) (days sums : list cell) :
  length days = length sums →
  day_col ≠ value_col → binary_col ≠ day_col → binary_col ≠ value_col →
  groupby_agg agg_mean
    [ (day_col, plain days);
      (binary_col, plain (day_type weekend_days <$> days));
      (value_col, plain sums) ]
    [binary_col] [value_col]
  = match traverse (day_type_mean weekend_days days sums)
                   (day_types_present weekend_days days) with
    | inl e => inl e
    | inr means =>
        inr [ (binary_col, plain (Str <$> day_types_present weekend_days days));
              (value_col, plain means) ]
    end.
Proof.
  intros Hlen Hdv Hbd Hbv.
  unfold groupby_agg. cbn [traverse]. rewrite getitem_cols_one. unfold getitem.
  rewrite get_column_tail, get_column_head by done.
  rewrite !get_column_tail, get_column_head by done.
  cbn [nrows fmap list_fmap cells plain snd].
  replace (transpose (length days) [day_type weekend_days <$> days])
    with ((λ c, [c]) <$> (day_type weekend_days <$> days))
    by (by rewrite <- transpose_one, length_fmap).
  replace (transpose (length days) [sums]) with ((λ v, [v]) <$> sums)
    by (by rewrite Hlen, transpose_one).
  rewrite (zip_fmap_fst_filter (λ r : cell * cell, negb (isna r.1))
             (λ c, [c]) (λ v, [v])
             (λ r, forallb (λ c, negb (isna c)) r.1)); last first.
  { intros x y. simpl. by rewrite andb_true_r. }
  assert (filter (λ r : cell * cell, negb (isna r.1))
            (zip (day_type weekend_days <$> days) sums)
          = zip (day_type weekend_days <$> days) sums) as ->.
  { clear. revert sums. induction days as [|d days IH]; intros [|s sums]; try done.
    cbn [fmap list_fmap zip zip_with].
    rewrite filter_cons_True by (rewrite day_type_listed; simpl; tauto).
    by rewrite IH. }
  set (rows := zip (day_type weekend_days <$> days) sums).
  assert ((prod_map (λ c : cell, [c]) (λ v : cell, [v]) <$> rows).*1
          = (λ c, [c]) <$> (day_type weekend_days <$> days)) as ->.
  { rewrite <- list_fmap_compose. subst rows.
    rewrite <- (fst_zip (day_type weekend_days <$> days) sums) at 2
      by (rewrite length_fmap; lia).
    by rewrite <- list_fmap_compose. }
  rewrite weekday_weekend_keys, traverse_fmap.
  rewrite (traverse_ext _ (λ label,
             match day_type_mean weekend_days days sums label with
             | inl e => inl e
             | inr m => inr [m]
             end)); last first.
  { intros label. rewrite aggregate_one.
    rewrite (group_values (λ c, [c]) (λ c, is_category label c)); last first.
    { intros c. unfold same_key. cbn [key_compare].
      destruct c as [s|x|]; cbn [cell_compare is_category]; try done.
      destruct (decide (s = label)) as [->|Hne].
      - by rewrite string_compare_refl, bool_decide_eq_true_2.
      - rewrite bool_decide_eq_false_2 by done.
        destruct (String.compare s label) eqn:Hc; try done.
        by apply String.compare_eq_iff in Hc. }
    unfold day_type_mean. subst rows.
    by rewrite (snd_filter_zip_fmap (λ c, is_category label c)). }
  rewrite traverse_wrap.
  destruct (traverse _ (day_types_present weekend_days days)) as [e|means]; [done|].
  rewrite decide_True by (by apply NoDup_two).
  cbn [imap app]. rewrite <- !list_fmap_compose.
  rewrite (fmap_id_ext (nth_cell 0 ∘ (λ b : cell, [b]))) by done.
  reflexivity.
Qed.

End stages.

Section weekday_weekend.
Context `{GroupBy}.

(** The call, reduced to its two group-by steps. *)
Lemma plot_avg_accidents_weekday_vs_weekend_run (w : world) (df : loc) (fr : frame)
    (day_col value_col : string) (binary_col : option string)
    (weekend_days : option (list string)) (title xlabel ylabel : option string)
    (dc : column) :
  let label_col := default "Weekend" binary_col in
  let weekend := default ["Samedi"; "Dimanche"] weekend_days in
  let labelled :=
    set_column fr label_col (plain (day_type weekend <$> cells dc)) in
  heap w !! df = Some (OFrame fr) →
  get_column fr day_col = Some dc →
  plot_avg_accidents_weekday_vs_weekend df day_col value_col binary_col
    weekend_days title xlabel ylabel w
  = match groupby_agg agg_sum labelled [day_col; label_col] [value_col] with
    | inl e => Raise e (after w (Effect [OFrame labelled] [] [] None [e]))
    | inr day_grouped =>
        match groupby_agg agg_mean day_grouped [label_col] [value_col] with
        | inl e =>
            Raise e (after w (Effect [OFrame labelled; OFrame day_grouped]
                                     [] [] None [e]))
        | inr avg_accidents =>
            let renamed := rename_column avg_accidents value_col "Average_Accidents" in
            Ok PyNone
               (after w
                  (Effect [OFrame labelled; OFrame day_grouped; OFrame renamed]
                     [] []
                     (Some [ Chart "bar" renamed label_col "Average_Accidents"
                               (default "Average Number of Accidents per Day (Weekdays vs. Weekends)" title)
                               (default "Type of Day" xlabel)
                               (default "Average Number of Accidents" ylabel) ])
                     []))
        end
    end.
Proof.
  intros label_col weekend labelled Hdf Hdc.
  apply run_from_start.
  unfold plot_avg_accidents_weekday_vs_weekend, no_effect. unfold_calls.
  replace (match weekend_days with Some d => d | None => _ end) with weekend
    by (by destruct weekend_days).
  fold label_col.
  rewrite load_caller, Hdf. repeat step.
  unfold getitem at 1. rewrite Hdc. repeat step.
  fold labelled.
  destruct (groupby_agg agg_sum labelled _ _) as [e|day_grouped]; repeat step; [done|].
  destruct (groupby_agg agg_mean day_grouped _ _) as [e|avg]; repeat step; done.
Qed.

(** C5: [plot_avg_accidents_weekday_vs_weekend] aggregates in two stages.
    For a dataset whose day and value columns have one cell per row, and
    column names that do not collide, the chart holds, for each of the
    labels Weekday and Weekend that occurs, the mean over the exact days
    with that label of the per-day sums of the value column; a failure of
    either reduction is the failure of the call. *)
Theorem weekday_weekend_two_stage_mean (w : world) (df : loc) (fr : frame)
    (day_col value_col : string) (binary_col : option string)
    (weekend_days : option (list string)) (title xlabel ylabel : option string)
    (dc vc : column) :
  let label_col := default "Weekend" binary_col in
  let weekend := default ["Samedi"; "Dimanche"] weekend_days in
  heap w !! df = Some (OFrame fr) →
  get_column fr day_col = Some dc →
  get_column fr value_col = Some vc →
  length (cells dc) = nrows fr → length (cells vc) = nrows fr →
  day_col ≠ value_col → label_col ≠ day_col → label_col ≠ value_col →
  match weekday_weekend_means weekend (cells dc) (cells vc) with
  | inr means =>
      ∃ w', plot_avg_accidents_weekday_vs_weekend df day_col value_col binary_col
              weekend_days title xlabel ylabel w = Ok PyNone w'
        ∧ display w' = display w ++ reverse (figures w) ++
            [ Chart "bar"
                [ (label_col,
                   plain (Str <$> day_types_present weekend (exact_days (cells dc))));
                  ("Average_Accidents", plain means) ]
                label_col "Average_Accidents"
                (default "Average Number of Accidents per Day (Weekdays vs. Weekends)" title)
                (default "Type of Day" xlabel)
                (default "Average Number of Accidents" ylabel) ]
  | inl e =>
      ∃ w', plot_avg_accidents_weekday_vs_weekend df day_col value_col binary_col
              weekend_days title xlabel ylabel w = Raise e w'
  end.
Proof.
  intros label_col weekend Hdf Hdc Hvc Hd Hv Hdv Hbd Hbv.
  rewrite (plot_avg_accidents_weekday_vs_weekend_run w df fr day_col value_col
             binary_col weekend_days title xlabel ylabel dc Hdf Hdc).
  fold label_col weekend.
  rewrite (stage_one fr day_col value_col label_col weekend dc vc) by done.
  unfold weekday_weekend_means.
  destruct (day_sums (cells dc) (cells vc)) as [e|sums] eqn:Hsums; [by eexists|].
  rewrite stage_two; [|symmetry; by eapply traverse_length|done..].
  destruct (traverse _ (day_types_present weekend (exact_days (cells dc))))
    as [e|means]; [by eexists|].
  eexists. split; [reflexivity|].
  cbn [after display shown rename_column fmap list_fmap fst snd].
  rewrite decide_False by done. by rewrite decide_True.
Qed.

End weekday_weekend.

(** The week of the example: Samedi 10 and Dimanche 20 average to 15, the
    five other days, 5 each, to 5. *)
Lemma weekday_weekend_week :
  (heap week_world !! 0 = Some (OFrame week)
   ∧ get_column week "Jour" = Some (plain [Str "Lundi"; Str "Samedi"; Str "Mardi";
       Str "Samedi"; Str "Dimanche"; Str "Mardi"; Str "Mercredi"; Str "Jeudi";
       Str "Vendredi"; Str "Vendredi"])
   ∧ get_column week "Accidents" = Some (plain [Num 5; Num 4; Num 2; Num 6;
       Num 20; Num 3; Num 5; Num 5; Num 1; Num 4])
   ∧ "Jour" ≠ "Accidents" ∧ "Weekend" ≠ "Jour" ∧ "Weekend" ≠ "Accidents")
  ∧ ∃ w', @plot_avg_accidents_weekday_vs_weekend left_to_right 0 "Jour" "Accidents"
            None None None None None week_world = Ok PyNone w'
      ∧ display w' =
          [ Chart "bar"
              [ ("Weekend", plain [Str "Weekday"; Str "Weekend"]);
                ("Average_Accidents", plain [Num 5; Num 15]) ]
              "Weekend" "Average_Accidents"
              "Average Number of Accidents per Day (Weekdays vs. Weekends)"
              "Type of Day" "Average Number of Accidents" ].
Proof.
  assert ("Jour" ≠ "Accidents") as H1 by done.
  assert ("Weekend" ≠ "Jour") as H2 by done.
  assert ("Weekend" ≠ "Accidents") as H3 by done.
  split; [by split_and!|].
  exact (@weekday_weekend_two_stage_mean left_to_right week_world 0 week
           "Jour" "Accidents" None None None None None _ _
           eq_refl eq_refl eq_refl eq_refl eq_refl H1 H2 H3).
Defined.

(** A flat mean over the weekend rows (4, 6 and 20) would be 10, not 15. *)
Lemma flat_mean_differs :
  @flat_mean left_to_right ["Samedi"; "Dimanche"]
    [Str "Lundi"; Str "Samedi"; Str "Mardi"; Str "Samedi"; Str "Dimanche";
     Str "Mardi"; Str "Mercredi"; Str "Jeudi"; Str "Vendredi"; Str "Vendredi"]
    [Num 5; Num 4; Num 2; Num 6; Num 20; Num 3; Num 5; Num 5; Num 1; Num 4]
    "Weekend" = inr (Num 10)
  ∧ @weekday_weekend_means left_to_right ["Samedi"; "Dimanche"]
    [Str "Lundi"; Str "Samedi"; Str "Mardi"; Str "Samedi"; Str "Dimanche";
     Str "Mardi"; Str "Mercredi"; Str "Jeudi"; Str "Vendredi"; Str "Vendredi"]
    [Num 5; Num 4; Num 2; Num 6; Num 20; Num 3; Num 5; Num 5; Num 1; Num 4]
    = inr [Num 5; Num 15].
Proof. split; by vm_compute. Qed.

(** On the week of the example the caller's table is untouched; the
    Weekend/Weekday column is in the copy, the first object created. *)
Lemma weekday_weekend_works_on_a_copy :
  let after_call :=
    final (@plot_avg_accidents_weekday_vs_weekend left_to_right 0 "Jour" "Accidents"
             None None None None None week_world) in
  heap after_call !! 0 = Some (OFrame week)
  ∧ heap after_call !! 1
    = Some (OFrame (week ++
        [("Weekend", plain [Str "Weekday"; Str "Weekend"; Str "Weekday";
                            Str "Weekend"; Str "Weekend"; Str "Weekday";
                            Str "Weekday"; Str "Weekday"; Str "Weekday";
                            Str "Weekday"])])).
Proof. split; by vm_compute. Qed.

(** ** Failures *)

Section failures.
Context `{GroupBy} `{Pandas} `{Scipy} `{Statsmodels}.

Lemma raised_by_call (c : call) (w : world) :
  raised (final (run c w)) =
  raised w ++ match status (run c w) with inl e => [e] | inr _ => [] end.
Proof.
  destruct (run_extends c w) as (eff & st & -> & Herr).
  destruct st; simpl; by rewrite Herr.
Qed.

End failures.









Section propagation.
Context `{GroupBy} `{Pandas} `{Scipy} `{Statsmodels}.



End propagation.



(** * Further properties *)

(** ** Comparisons of binary64 numbers *)

Lemma SFcompare_refl_nan (s : spec_float) :
  SFeqb s s = false → s = S754_nan.
Proof.
  unfold SFeqb. destruct s as [b|b| |b m e]; simpl; try done.
  - by destruct b.
  - rewrite Z.compare_refl, Pos.compare_cont_refl. by destruct b.
Qed.

Lemma ltb_nan_l (x y : float) : is_nan x = true → (x <? y)%float = false.
Proof.
  unfold is_nan. rewrite FloatAxioms.eqb_spec, ltb_spec. intros Hx.
  apply negb_true_iff, SFcompare_refl_nan in Hx. by rewrite Hx.
Qed.

Lemma ltb_nan_r (x y : float) : is_nan y = true → (x <? y)%float = false.
Proof.
  unfold is_nan. rewrite FloatAxioms.eqb_spec, ltb_spec. intros Hy.
  apply negb_true_iff, SFcompare_refl_nan in Hy. rewrite Hy.
  unfold SFltb. by destruct (Prim2SF x) as [[]|[]| |].
Qed.

Lemma SFcompare_Lt_Gt (s t : spec_float) :
  SFcompare s t = Some Lt → SFcompare t s = Some Gt.
Proof.
  destruct s as [b|b| |b m e], t as [b'|b'| |b' m' e']; simpl; try done.
  all: try (by destruct b); try (by destruct b'); try (by destruct b, b').
  rewrite (Z.compare_antisym e e').
  change (Pos.compare_cont Eq m' m) with (Pos.compare_cont (CompOpp Eq) m' m).
  rewrite <- (Pos.compare_cont_antisym m m' Eq).
  destruct b, b', (e ?= e')%Z, (Pos.compare_cont Eq m m'); simpl; congruence.
Qed.

Lemma leb_not_ltb (x y : float) : (x <=? y)%float = true → (y <? x)%float = false.
Proof.
  rewrite leb_spec, ltb_spec. unfold SFleb, SFltb. intros Hle.
  destruct (SFcompare (Prim2SF y) (Prim2SF x)) as [[]|] eqn:E; try done.
  by rewrite (SFcompare_Lt_Gt _ _ E) in Hle.
Qed.

Lemma ltb_asym (x y : float) : (x <? y)%float = true → (y <? x)%float = false.
Proof.
  rewrite !ltb_spec. unfold SFltb. intros Hlt.
  destruct (SFcompare (Prim2SF x) (Prim2SF y)) as [[]|] eqn:E; try done.
  by rewrite (SFcompare_Lt_Gt _ _ E).
Qed.


(** ** regression.py: the reports and the tables *)

Lemma compare_models_aic_run (w : world) (model1 model2 : loc)
    (name1 name2 : option string) (attrs1 attrs2 : gmap string float)
    (aic1 aic2 : float) :
  heap w !! model1 = Some (OModel attrs1) →
  heap w !! model2 = Some (OModel attrs2) →
  attrs1 !! "aic" = Some aic1 → attrs2 !! "aic" = Some aic2 →
  compare_models_aic model1 model2 name1 name2 w =
    Ok PyNone
       (World (heap w)
          (stdout w ++
           [ [Text "AIC - "; Text (default "Model 1" name1); Text ": "; Fixed 2 aic1];
             [Text "AIC - "; Text (default "Model 2" name2); Text ": "; Fixed 2 aic2];
             aic_verdict (default "Model 1" name1) (default "Model 2" name2)
               aic1 aic2 ])
          (figures w) (display w) (raised w)).
Proof.
  intros H1 H2 Ha1 Ha2. rewrite <- after_printed. apply run_from_start.
  unfold compare_models_aic, aic_verdict, no_effect. unfold_calls.
  run_call; reflexivity.
Qed.

Lemma aic_verdict_sym (name1 name2 : string) (aic1 aic2 : float) :
  aic_verdict name1 name2 aic1 aic2 = aic_verdict name2 name1 aic2 aic1.
Proof.
  unfold aic_verdict.
  destruct (aic1 <? aic2)%float eqn:E12; [by rewrite (ltb_asym _ _ E12)|].
  by destruct (aic2 <? aic1)%float.
Qed.

(** X1: the conclusion of [compare_models_aic] does not depend on the
    order in which the two models are passed.  For models whose AIC can
    be read, the last line printed is the verdict on the two AIC values,
    and the call with the models and their names swapped prints the same
    last line. *)
Theorem compare_models_aic_order_irrelevant (w : world) (model1 model2 : loc)
    (name1 name2 : string) (attrs1 attrs2 : gmap string float) (aic1 aic2 : float) :
  heap w !! model1 = Some (OModel attrs1) →
  heap w !! model2 = Some (OModel attrs2) →
  attrs1 !! "aic" = Some aic1 → attrs2 !! "aic" = Some aic2 →
  last (stdout (final (compare_models_aic model1 model2 (Some name1) (Some name2) w)))
    = Some (aic_verdict name1 name2 aic1 aic2)
  ∧ last (stdout (final (compare_models_aic model2 model1 (Some name2) (Some name1) w)))
    = Some (aic_verdict name1 name2 aic1 aic2).
Proof.
  intros H1 H2 Ha1 Ha2.
  rewrite (compare_models_aic_run w model1 model2 _ _ _ _ aic1 aic2) by done.
  rewrite (compare_models_aic_run w model2 model1 _ _ _ _ aic2 aic1) by done.
  cbn [final stdout default]. rewrite !last_app. cbn [last].
  by rewrite (aic_verdict_sym name2 name1).
Qed.

(** On the models with AIC 100.0 and 95.0 the second one, "B", is preferred,
    in either order. *)
Lemma compare_models_aic_example :
  (heap aic_models !! 0 = Some (OModel {["aic" := 100%float]})
   ∧ heap aic_models !! 1 = Some (OModel {["aic" := 95%float]}))
  ∧ last (stdout (final (compare_models_aic 0 1 (Some "A") (Some "B") aic_models)))
    = Some [Text "→ "; Text "B"; Text " has a lower AIC and is preferred."]
  ∧ last (stdout (final (compare_models_aic 1 0 (Some "B") (Some "A") aic_models)))
    = Some [Text "→ "; Text "B"; Text " has a lower AIC and is preferred."].
Proof.
  split; [done|].
  exact (compare_models_aic_order_irrelevant aic_models 0 1 "A" "B" _ _
           100%float 95%float eq_refl eq_refl eq_refl eq_refl).
Defined.

(** X2: when the AIC of either model is not a number, neither
    comparison of [compare_models_aic] holds: the call returns and its
    last line is "Both models have the same AIC." *)
Theorem compare_models_aic_nan_is_a_tie (w : world) (model1 model2 : loc)
    (name1 name2 : option string) (attrs1 attrs2 : gmap string float)
    (aic1 aic2 : float) :
  heap w !! model1 = Some (OModel attrs1) →
  heap w !! model2 = Some (OModel attrs2) →
  attrs1 !! "aic" = Some aic1 → attrs2 !! "aic" = Some aic2 →
  is_nan aic1 = true ∨ is_nan aic2 = true →
  status (compare_models_aic model1 model2 name1 name2 w) = inr PyNone
  ∧ last (stdout (final (compare_models_aic model1 model2 name1 name2 w)))
    = Some [Text "→ Both models have the same AIC."].
Proof.
  intros H1 H2 Ha1 Ha2 Hnan.
  rewrite (compare_models_aic_run w model1 model2 _ _ _ _ aic1 aic2) by done.
  split; [done|]. cbn [final stdout]. rewrite last_app. cbn [last].
  unfold aic_verdict.
  destruct Hnan as [Hnan|Hnan].
  - by rewrite (ltb_nan_l _ _ Hnan), (ltb_nan_r _ _ Hnan).
  - by rewrite (ltb_nan_r _ _ Hnan), (ltb_nan_l _ _ Hnan).
Qed.

(** A model whose AIC is not a number, against one with AIC 95.0. *)
Lemma compare_models_aic_unfitted :
  (heap unfitted_models !! 0 = Some (OModel {["aic" := nan]})
   ∧ heap unfitted_models !! 1 = Some (OModel {["aic" := 95%float]})
   ∧ (is_nan nan = true ∨ is_nan 95 = true))
  ∧ status (compare_models_aic 0 1 None None unfitted_models) = inr PyNone
  ∧ last (stdout (final (compare_models_aic 0 1 None None unfitted_models)))
    = Some [Text "→ Both models have the same AIC."].
Proof.
  split; [by repeat split; [..|left]|].
  exact (compare_models_aic_nan_is_a_tie unfitted_models 0 1 None None _ _
           nan 95%float eq_refl eq_refl eq_refl eq_refl (or_introl eq_refl)).
Defined.

Section diagnostics.
Context `{Scipy}.

(** X3: when the p-value [likelihood_ratio_test] obtains is not a number
    (as [chi2.sf] gives for degrees of freedom that are not positive),
    the test [p_value < 0.05] fails: the call returns and its last line
    is "No significant improvement; '<name1>' is sufficient." *)
Theorem likelihood_ratio_test_nan_is_not_significant (w : world)
    (model1 model2 : loc) (name1 name2 : option string)
    (attrs1 attrs2 : gmap string float) (llf1 df1 llf2 df2 : float) :
  heap w !! model1 = Some (OModel attrs1) →
  heap w !! model2 = Some (OModel attrs2) →
  attrs1 !! "llf" = Some llf1 → attrs1 !! "df_model" = Some df1 →
  attrs2 !! "llf" = Some llf2 → attrs2 !! "df_model" = Some df2 →
  is_nan (chi2_sf (2 * (llf2 - llf1)) ((df2 + 1) - df1)) = true →
  status (likelihood_ratio_test model1 model2 name1 name2 w) = inr PyNone
  ∧ last (stdout (final (likelihood_ratio_test model1 model2 name1 name2 w)))
    = Some [Text "→ No significant improvement; '"; Text (default "Model 1" name1);
            Text "' is sufficient."].
Proof.
  intros H1 H2 Hllf1 Hdf1 Hllf2 Hdf2 Hnan.
  destruct (likelihood_ratio_test_run w model1 model2
              (default "Model 1" name1) (default "Model 2" name2) _ _ _ _ _ _
              H1 H2 Hllf1 Hdf1 Hllf2 Hdf2) as (lines & Hrun & ->).
  change (likelihood_ratio_test model1 model2 name1 name2 w)
    with (likelihood_ratio_test model1 model2 (Some (default "Model 1" name1))
            (Some (default "Model 2" name2)) w).
  rewrite Hrun. split; [done|].
  rewrite after_printed. cbn [final stdout].
  rewrite last_app. cbn [last]. by rewrite (ltb_nan_l _ _ Hnan).
Qed.

End diagnostics.

(** The nested models passed in the wrong order: the test has -1 degrees
    of freedom and no p-value. *)
Lemma likelihood_ratio_test_swapped :
  (heap swapped_models !! 0 =
     Some (OModel {["llf" := (-490)%float; "df_model" := 3%float]})
   ∧ heap swapped_models !! 1 =
     Some (OModel {["llf" := (-500)%float; "df_model" := 1%float]})
   ∧ is_nan (@chi2_sf chi2_sf_at_example (2 * (-500 - -490)) ((1 + 1) - 3)) = true)
  ∧ status (@likelihood_ratio_test chi2_sf_at_example 0 1 None None swapped_models)
    = inr PyNone
  ∧ last (stdout (final (@likelihood_ratio_test chi2_sf_at_example 0 1 None None
                           swapped_models)))
    = Some [Text "→ No significant improvement; '"; Text "Model 1";
            Text "' is sufficient."].
Proof.
  split; [done|].
  exact (@likelihood_ratio_test_nan_is_not_significant chi2_sf_at_example
           swapped_models 0 1 None None _ _
           (-490)%float 3%float (-500)%float 1%float
           eq_refl eq_refl eq_refl eq_refl eq_refl eq_refl eq_refl).
Defined.


Section diagnostics_fail.
Context `{Scipy}.


End diagnostics_fail.

(** The two pseudo R-squared values, as [compute_pseudo_r2] computes them. *)
Lemma compute_pseudo_r2_run (w : world) (model : loc)
    (model_name : option string) (attrs : gmap string float)
    (llf null_deviance nobs : float) :
  heap w !! model = Some (OModel attrs) →
  attrs !! "llf" = Some llf →
  attrs !! "null_deviance" = Some null_deviance →
  attrs !! "nobs" = Some nobs →
  compute_pseudo_r2 model model_name w =
  Ok (PyRef (length (heap w)))
     (World (heap w ++ [OFrame (pseudo_r2_table (default "Model" model_name)
                                  llf null_deviance nobs)])
            (stdout w) (figures w) (display w) (raised w)).
Proof.
  intros Hm Hllf Hnull Hnobs.
  rewrite <- after_created. apply run_from_start.
  unfold compute_pseudo_r2, pseudo_r2_table, no_effect. unfold_calls.
  run_call. rewrite Nat.add_0_r. reflexivity.
Qed.

Lemma dataset_info_run (w : world) (df : loc) (fr : frame) :
  heap w !! df = Some (OFrame fr) →
  dataset_info df w =
    Ok PyNone
       (World (heap w)
          (stdout w ++
           [ [Text "Number of rows: "; ShowNat (nrows fr)];
             [Text "Number of columns: "; ShowNat (length fr); Text newline];
             [Text "Column names:"];
             [ShowNames fr.*1; Text " "; Text newline];
             [Text "Data types:"];
             [ShowDtypes fr; Text " "; Text newline] ])
          (figures w) (display w) (raised w)).
Proof.
  intros Hdf. rewrite <- after_printed. apply run_from_start.
  unfold dataset_info, no_effect. unfold_calls.
  run_call. reflexivity.
Qed.

(** X5: [compute_pseudo_r2] builds a new table at each call.  Two
    successive calls on the same model return two different references,
    neither of which existed before, and both hold the same table. *)
Theorem compute_pseudo_r2_fresh_table (w : world) (model : loc)
    (model_name : option string) (attrs : gmap string float)
    (llf null_deviance nobs : float) :
  heap w !! model = Some (OModel attrs) →
  attrs !! "llf" = Some llf →
  attrs !! "null_deviance" = Some null_deviance →
  attrs !! "nobs" = Some nobs →
  let first := compute_pseudo_r2 model model_name w in
  let second := compute_pseudo_r2 model model_name (final first) in
  ∃ (l1 l2 : loc) (table : frame),
    status first = inr (PyRef l1) ∧ status second = inr (PyRef l2)
    ∧ l1 ≠ l2
    ∧ heap w !! l1 = None ∧ heap w !! l2 = None
    ∧ heap (final second) !! l1 = Some (OFrame table)
    ∧ heap (final second) !! l2 = Some (OFrame table).
Proof.
  intros Hm Hllf Hnull Hnobs first second. subst first second.
  rewrite (compute_pseudo_r2_run w model model_name attrs _ _ _ Hm Hllf Hnull Hnobs).
  cbn [final].
  erewrite compute_pseudo_r2_run;
    [|by apply lookup_app_l_Some|done..].
  cbn [status final heap].
  eexists _, _, _. split; [reflexivity|]. split; [reflexivity|].
  rewrite length_app. cbn [length].
  split; [lia|].
  split; [apply lookup_ge_None_2; lia|].
  split; [apply lookup_ge_None_2; lia|].
  split.
  - rewrite <- app_assoc. rewrite lookup_app_r by lia.
    by rewrite Nat.sub_diag.
  - rewrite lookup_app_r by (rewrite length_app; simpl; lia).
    rewrite length_app. cbn [length]. by rewrite Nat.sub_diag.
Qed.

(** Two calls on the model of the example. *)
Lemma compute_pseudo_r2_twice :
  (heap degenerate_model !! 0 =
     Some (OModel {["null_deviance" := 200%float; "llf" := (-80)%float;
                    "nobs" := 50%float]}))
  ∧ ∃ (l1 l2 : loc) (table : frame),
      status (compute_pseudo_r2 0 None degenerate_model) = inr (PyRef l1)
      ∧ status (compute_pseudo_r2 0 None
                  (final (compute_pseudo_r2 0 None degenerate_model)))
        = inr (PyRef l2)
      ∧ l1 ≠ l2
      ∧ heap degenerate_model !! l1 = None ∧ heap degenerate_model !! l2 = None
      ∧ heap (final (compute_pseudo_r2 0 None
                       (final (compute_pseudo_r2 0 None degenerate_model)))) !! l1
        = Some (OFrame table)
      ∧ heap (final (compute_pseudo_r2 0 None
                       (final (compute_pseudo_r2 0 None degenerate_model)))) !! l2
        = Some (OFrame table).
Proof.
  split; [done|].
  exact (compute_pseudo_r2_fresh_table degenerate_model 0 None _
           (-80)%float 200%float 50%float eq_refl eq_refl eq_refl eq_refl).
Defined.

(** X6: [dataset_info] applied to the table [compute_pseudo_r2] returns
    reports 2 rows and the 3 columns Model, Metric and Value, whatever
    the model; it prints its six lines after what was printed before, and
    leaves the table as it was. *)
Theorem dataset_info_of_pseudo_r2 (w : world) (model : loc)
    (model_name : option string) (attrs : gmap string float)
    (llf null_deviance nobs : float) :
  heap w !! model = Some (OModel attrs) →
  attrs !! "llf" = Some llf →
  attrs !! "null_deviance" = Some null_deviance →
  attrs !! "nobs" = Some nobs →
  ∃ (l : loc) (w1 : world) (table : frame),
    compute_pseudo_r2 model model_name w = Ok (PyRef l) w1
    ∧ heap w1 !! l = Some (OFrame table)
    ∧ dataset_info l w1 =
      Ok PyNone
         (World (heap w1)
            (stdout w ++
             [ [Text "Number of rows: "; ShowNat 2];
               [Text "Number of columns: "; ShowNat 3; Text newline];
               [Text "Column names:"];
               [ShowNames ["Model"; "Metric"; "Value"]; Text " "; Text newline];
               [Text "Data types:"];
               [ShowDtypes table; Text " "; Text newline] ])
            (figures w) (display w) (raised w)).
Proof.
  intros Hm Hllf Hnull Hnobs.
  rewrite (compute_pseudo_r2_run w model model_name attrs _ _ _ Hm Hllf Hnull Hnobs).
  eexists _, _, _. split; [reflexivity|].
  assert (∀ o, (heap w ++ [o]) !! length (heap w) = Some o) as Hnew.
  { intros o. rewrite lookup_app_r by lia. by rewrite Nat.sub_diag. }
  split; [apply Hnew|].
  erewrite dataset_info_run by apply Hnew. reflexivity.
Qed.

(** The report on the table of the example. *)
Lemma dataset_info_of_pseudo_r2_example :
  (heap degenerate_model !! 0 =
     Some (OModel {["null_deviance" := 200%float; "llf" := (-80)%float;
                    "nobs" := 50%float]}))
  ∧ ∃ (l : loc) (w1 : world) (table : frame),
      compute_pseudo_r2 0 None degenerate_model = Ok (PyRef l) w1
      ∧ heap w1 !! l = Some (OFrame table)
      ∧ dataset_info l w1 =
        Ok PyNone
           (World (heap w1)
              (stdout degenerate_model ++
               [ [Text "Number of rows: "; ShowNat 2];
                 [Text "Number of columns: "; ShowNat 3; Text newline];
                 [Text "Column names:"];
                 [ShowNames ["Model"; "Metric"; "Value"]; Text " "; Text newline];
                 [Text "Data types:"];
                 [ShowDtypes table; Text " "; Text newline] ])
              (figures degenerate_model) (display degenerate_model)
              (raised degenerate_model)).
Proof.
  split; [done|].
  exact (dataset_info_of_pseudo_r2 degenerate_model 0 None _
           (-80)%float 200%float 50%float eq_refl eq_refl eq_refl eq_refl).
Defined.

(** ** regression.py: the VIF table *)

Lemma getitem_cols_names (fr sel : frame) (names : list string) :
  getitem_cols fr names = inr sel → sel.*1 = names.
Proof.
  unfold getitem_cols.
  destruct (filter _ names) as [|n missing] eqn:Hmissing; [|done].
  intros [= <-].
  assert (Forall (λ n, is_Some (get_column fr n)) names) as Hall.
  { apply Forall_forall. intros n Hn.
    destruct (decide (is_Some (get_column fr n))) as [|Hno]; [done|].
    assert (n ∈ filter (λ n, ¬ is_Some (get_column fr n)) names) as Hin
      by (by apply list_elem_of_filter).
    rewrite Hmissing in Hin. by apply elem_of_nil in Hin. }
  clear Hmissing. induction Hall as [|n names [c Hc] _ IH]; [done|].
  cbn [omap list_omap]. rewrite Hc. cbn. by rewrite IH.
Qed.

Lemma lookup_created (w : world) (eff : effect) (i : nat) (o : object) :
  created eff !! i = Some o →
  heap (after w eff) !! (length (heap w) + i) = Some o.
Proof.
  intros Hi. unfold after. cbn [heap]. rewrite lookup_app_r by lia.
  by replace (length (heap w) + i - length (heap w)) with i by lia.
Qed.

Section vif.
Context `{Statsmodels}.

(** X7: the table [compute_vif] returns.  When the features are columns
    of the dataset, the design matrix [X] is the selection (with the
    intercept column when [add_constant] holds) and every VIF can be
    computed, the call returns a new table whose [Variable] column holds
    the column names of [X] in order and whose [VIF] column has one value
    per column of [X]; the selection has exactly the requested features
    as columns, so without the intercept [Variable] is [features]. *)
Theorem compute_vif_table (w : world) (df : loc) (fr sel X : frame)
    (features : list string) (add_constant : option bool) (vifs : list cell) :
  heap w !! df = Some (OFrame fr) →
  getitem_cols fr features = inr sel →
  (if default true add_constant then sm_add_constant sel else inr sel) = inr X →
  traverse (variance_inflation_factor (values X)) (seq 0 (length X)) = inr vifs →
  ∃ (l : loc) (w' : world),
    compute_vif df features add_constant w = Ok (PyRef l) w'
    ∧ heap w !! l = None
    ∧ heap w' !! l = Some (OFrame [ ("Variable", plain (Str <$> X.*1));
                                    ("VIF", plain vifs) ])
    ∧ length vifs = length X
    ∧ sel.*1 = features
    ∧ (add_constant = Some false → X.*1 = features).
Proof.
  intros Hdf Hsel HX Hvifs.
  pose proof (traverse_length _ _ _ Hvifs) as Hlen. rewrite length_seq in Hlen.
  pose proof (getitem_cols_names _ _ _ Hsel) as Hnames.
  assert (∃ l w', compute_vif df features add_constant w = Ok (PyRef l) w'
            ∧ heap w !! l = None
            ∧ heap w' !! l = Some (OFrame [ ("Variable", plain (Str <$> X.*1));
                                            ("VIF", plain vifs) ])) as (l & w' & Hrun).
  { destruct add_constant as [[|]|]; cbn [default from_option id] in HX;
      [|injection HX as ->|].
    all: eexists _, _; split;
      [ apply run_from_start; unfold compute_vif, no_effect; unfold_calls;
        cbn [default from_option id]; rewrite load_caller, Hdf; repeat step; rewrite Hsel;
        repeat step; rewrite ?HX; repeat step;
        erewrite vif_column_after by reflexivity; rewrite Hvifs;
        repeat step; reflexivity |].
    all: split; [apply lookup_ge_None_2; lia|].
    all: by apply lookup_created. }
  exists l, w'. destruct Hrun as (Hrun & Hfresh & Htable).
  repeat split; try done.
  intros ->. cbn [default from_option id] in HX. by injection HX as <-.
Qed.

End vif.

(** The VIF table of the week for the feature Accidents, with the
    intercept: two rows. *)
Lemma compute_vif_week :
  ∃ X : frame,
    (heap week_world !! 0 = Some (OFrame week)
     ∧ getitem_cols week ["Accidents"]
       = inr [("Accidents", plain [Num 5; Num 4; Num 2; Num 6; Num 20; Num 3;
                                    Num 5; Num 5; Num 1; Num 4])]
     ∧ @sm_add_constant statsmodels_uncorrelated
         [("Accidents", plain [Num 5; Num 4; Num 2; Num 6; Num 20; Num 3;
                               Num 5; Num 5; Num 1; Num 4])] = inr X
     ∧ traverse (@variance_inflation_factor statsmodels_uncorrelated (values X))
         (seq 0 (length X)) = inr [Num 1; Num 1])
    ∧ ∃ (l : loc) (w' : world),
        @compute_vif statsmodels_uncorrelated 0 ["Accidents"] None week_world
          = Ok (PyRef l) w'
        ∧ heap week_world !! l = None
        ∧ heap w' !! l = Some (OFrame [ ("Variable", plain (Str <$> X.*1));
                                        ("VIF", plain [Num 1; Num 1]) ])
        ∧ length [Num 1; Num 1] = length X
        ∧ ["Accidents"] = ["Accidents"]
        ∧ (None = Some false → X.*1 = ["Accidents"]).
Proof.
  eexists. split; [by split_and!|].
  exact (@compute_vif_table statsmodels_uncorrelated week_world 0 week _ _
           ["Accidents"] None [Num 1; Num 1] eq_refl eq_refl eq_refl eq_refl).
Defined.

(** ** Charts: absent columns *)

Lemma groupby_missing_key (agg : list cell → result cell) (fr : frame)
    (key : string) (keys vals : list string) :
  get_column fr key = None →
  groupby_agg agg fr (key :: keys) vals = inl (KeyError [key]).
Proof.
  intros Hkey. unfold groupby_agg. cbn [traverse]. unfold getitem at 1.
  by rewrite Hkey.
Qed.

Lemma traverse_getitem (fr : frame) (names : list string) :
  Forall (λ n, is_Some (get_column fr n)) names →
  ∃ cols, traverse (getitem fr) names = inr cols.
Proof.
  induction 1 as [|n names [c Hc] _ [cols IH]]; [by eexists|].
  cbn [traverse]. unfold getitem at 1. rewrite Hc, IH. by eexists.
Qed.

Lemma groupby_missing_value (agg : list cell → result cell) (fr : frame)
    (keys : list string) (val : string) :
  Forall (λ n, is_Some (get_column fr n)) keys →
  get_column fr val = None →
  groupby_agg agg fr keys [val] = inl (KeyError [val]).
Proof.
  intros Hkeys Hval. destruct (traverse_getitem fr keys Hkeys) as [cols Hcols].
  unfold groupby_agg. rewrite Hcols, getitem_cols_one. by rewrite Hval.
Qed.

Lemma is_Some_set_column (fr : frame) (name other : string) (c : column) :
  is_Some (get_column fr other) → is_Some (get_column (set_column fr name c) other).
Proof.
  intros Hother. destruct (decide (other = name)) as [->|Hne].
  - by rewrite get_column_set_column.
  - by rewrite get_column_set_column_ne.
Qed.

(** The world a call leaves when it fails before it prints or draws. *)
Lemma after_failure (w : world) (objects : list object) (es : list exn) :
  stdout (after w (Effect objects [] [] None es)) = stdout w
  ∧ figures (after w (Effect objects [] [] None es)) = figures w
  ∧ display (after w (Effect objects [] [] None es)) = display w.
Proof. unfold after. simpl. by rewrite app_nil_r. Qed.

Ltac unfold_charts :=
  unfold run_chart, plot_accidents_by_day, plot_avg_accidents_weekday_vs_weekend,
    plot_accidents_by_road_type, plot_accidents_by_hour,
    plot_accidents_by_light_condition, plot_accident_severity_by_light_condition.

Section absent_columns.
Context `{GroupBy} `{Pandas}.

Lemma missing_key_column_run (c : chart_call) (w : world) (fr : frame) :
  heap w !! dataset_of c = Some (OFrame fr) →
  get_column fr (key_column c) = None →
  ∃ objects,
    run_chart c w =
    Raise (KeyError [key_column c])
          (after w (Effect objects [] [] None [KeyError [key_column c]])).
Proof.
  intros Hdf Hkey. destruct c; cbn [dataset_of key_column] in Hdf, Hkey |- *.
  all: eexists; apply run_from_start; unfold_charts; unfold no_effect.
  all: unfold_calls; rewrite load_caller, Hdf; repeat step.
  all: rewrite ?groupby_missing_key by done; unfold getitem; rewrite ?Hkey.
  all: repeat step; reflexivity.
Qed.

(** X8: a chart function called with a grouping column that the dataset
    does not have raises [KeyError] for that column, whichever of the six
    it is; nothing is printed, no figure is opened and nothing is
    shown. *)
Theorem missing_key_column_raises (c : chart_call) (w : world) (fr : frame) :
  heap w !! dataset_of c = Some (OFrame fr) →
  get_column fr (key_column c) = None →
  status (run_chart c w) = inl (KeyError [key_column c])
  ∧ stdout (final (run_chart c w)) = stdout w
  ∧ figures (final (run_chart c w)) = figures w
  ∧ display (final (run_chart c w)) = display w.
Proof.
  intros Hdf Hkey.
  destruct (missing_key_column_run c w fr Hdf Hkey) as [objects ->].
  split; [done|]. apply after_failure.
Qed.

Lemma missing_value_column_run (c : chart_call) (w : world) (fr : frame)
    (value_col : string) :
  heap w !! dataset_of c = Some (OFrame fr) →
  is_Some (get_column fr (key_column c)) →
  value_column c = Some value_col →
  label_column c ≠ Some value_col →
  get_column fr value_col = None →
  ∃ objects,
    run_chart c w =
    Raise (KeyError [value_col])
          (after w (Effect objects [] [] None [KeyError [value_col]])).
Proof.
  intros Hdf Hkey Hval Hlabel Hmissing.
  destruct c; cbn [dataset_of key_column value_column label_column]
    in Hdf, Hkey, Hval, Hlabel; try done; injection Hval as ->.
  2:{ destruct Hkey as [dc Hdc]. eexists. unfold run_chart.
      rewrite (plot_avg_accidents_weekday_vs_weekend_run w df fr day_col value_col
                 binary_col weekend_days title xlabel ylabel dc Hdf Hdc).
      rewrite groupby_missing_value; [reflexivity| |].
      - apply Forall_cons_2; [apply is_Some_set_column; by rewrite Hdc|].
        apply Forall_cons_2; [by rewrite get_column_set_column|].
        apply Forall_nil_2.
      - rewrite get_column_set_column_ne; [done|]. congruence. }
  all: destruct Hkey as [kc Hkc].
  all: eexists; apply run_from_start; unfold_charts; unfold no_effect.
  all: unfold_calls; rewrite load_caller, Hdf; repeat step.
  all: rewrite groupby_missing_value;
    [|apply Forall_cons_2; [by rewrite Hkc|apply Forall_nil_2]|done].
  all: repeat step; reflexivity.
Qed.

(** X9: a chart function called with a value column that the dataset
    does not have, the grouping column being present, raises [KeyError]
    for the value column before any figure is opened.  This holds for the
    five functions with one value column; for
    [plot_avg_accidents_weekday_vs_weekend] the value column must differ
    from the label column the function adds. *)
Theorem missing_value_column_raises (c : chart_call) (w : world) (fr : frame)
    (value_col : string) :
  heap w !! dataset_of c = Some (OFrame fr) →
  is_Some (get_column fr (key_column c)) →
  value_column c = Some value_col →
  label_column c ≠ Some value_col →
  get_column fr value_col = None →
  status (run_chart c w) = inl (KeyError [value_col])
  ∧ stdout (final (run_chart c w)) = stdout w
  ∧ figures (final (run_chart c w)) = figures w
  ∧ display (final (run_chart c w)) = display w.
Proof.
  intros Hdf Hkey Hval Hlabel Hmissing.
  destruct (missing_value_column_run c w fr value_col Hdf Hkey Hval Hlabel Hmissing)
    as [objects ->].
  split; [done|]. apply after_failure.
Qed.

(** X10: [plot_accidents_by_day] called with a [day_order] that repeats
    a label raises the [ValueError] of [pd.Categorical] once the grouping
    has succeeded; no figure is opened and nothing is shown. *)
Theorem duplicate_day_order_raises (w : world) (df : loc) (fr g : frame)
    (day_col value_col : string) (title xlabel ylabel : option string)
    (day_order : list string) :
  heap w !! df = Some (OFrame fr) →
  groupby_agg agg_sum fr [day_col] [value_col] = inr g →
  ¬ NoDup day_order →
  let call := plot_accidents_by_day df day_col value_col title xlabel ylabel
                (Some day_order) in
  status (call w) = inl (ValueError "Categorical categories must be unique")
  ∧ stdout (final (call w)) = stdout w
  ∧ figures (final (call w)) = figures w
  ∧ display (final (call w)) = display w.
Proof.
  intros Hdf Hg Hdup call. subst call.
  destruct (groupby_single_shape _ _ _ _ _ Hg) as (keys & sums & -> & Hne & Hlen).
  assert (∃ objects,
    plot_accidents_by_day df day_col value_col title xlabel ylabel (Some day_order) w
    = Raise (ValueError "Categorical categories must be unique")
        (after w (Effect objects [] [] None
                    [ValueError "Categorical categories must be unique"])))
    as [objects ->].
  { eexists. apply run_from_start. unfold plot_accidents_by_day, no_effect.
    unfold_calls. rewrite load_caller, Hdf. repeat step. rewrite Hg. repeat step.
    unfold getitem. rewrite get_column_head. repeat step.
    unfold Categorical. rewrite decide_False by done. repeat step. reflexivity. }
  split; [done|]. apply after_failure.
Qed.

End absent_columns.

(** The week has no column Heure. *)
Lemma missing_hour_column :
  (heap week_world !! 0 = Some (OFrame week) ∧ get_column week "Heure" = None)
  ∧ status (@run_chart left_to_right pandas_unavailable
              (PlotAccidentsByHour 0 "Heure" "Accidents" None None None) week_world)
    = inl (KeyError ["Heure"])
  ∧ stdout (final (@run_chart left_to_right pandas_unavailable
              (PlotAccidentsByHour 0 "Heure" "Accidents" None None None) week_world))
    = []
  ∧ figures (final (@run_chart left_to_right pandas_unavailable
              (PlotAccidentsByHour 0 "Heure" "Accidents" None None None) week_world))
    = []
  ∧ display (final (@run_chart left_to_right pandas_unavailable
              (PlotAccidentsByHour 0 "Heure" "Accidents" None None None) week_world))
    = [].
Proof.
  split; [done|].
  exact (@missing_key_column_raises left_to_right pandas_unavailable
           (PlotAccidentsByHour 0 "Heure" "Accidents" None None None)
           week_world week eq_refl eq_refl).
Defined.

(** The week has no column Morts. *)
Lemma missing_deaths_column :
  (heap week_world !! 0 = Some (OFrame week)
   ∧ is_Some (get_column week "Jour")
   ∧ Some "Weekend" ≠ Some "Morts"
   ∧ get_column week "Morts" = None)
  ∧ status (@run_chart left_to_right pandas_unavailable
              (PlotAvgAccidentsWeekdayVsWeekend 0 "Jour" "Morts" None None
                 None None None) week_world)
    = inl (KeyError ["Morts"])
  ∧ stdout (final (@run_chart left_to_right pandas_unavailable
              (PlotAvgAccidentsWeekdayVsWeekend 0 "Jour" "Morts" None None
                 None None None) week_world)) = []
  ∧ figures (final (@run_chart left_to_right pandas_unavailable
              (PlotAvgAccidentsWeekdayVsWeekend 0 "Jour" "Morts" None None
                 None None None) week_world)) = []
  ∧ display (final (@run_chart left_to_right pandas_unavailable
              (PlotAvgAccidentsWeekdayVsWeekend 0 "Jour" "Morts" None None
                 None None None) week_world)) = [].
Proof.
  assert (Some "Weekend" ≠ Some "Morts") as Hlabel by done.
  assert (is_Some (get_column week "Jour")) as Hkey by (by eexists).
  split; [done|].
  exact (@missing_value_column_raises left_to_right pandas_unavailable
           (PlotAvgAccidentsWeekdayVsWeekend 0 "Jour" "Morts" None None
              None None None)
           week_world week "Morts" eq_refl Hkey eq_refl Hlabel eq_refl).
Defined.

(** Lundi listed twice. *)
Lemma repeated_day_in_order :
  (heap holiday_world !! 0 = Some (OFrame week_with_holidays)
   ∧ @groupby_agg (@agg_sum left_to_right) week_with_holidays ["Jour"] ["Accidents"]
     = inr [ ("Jour", plain [Str "Dimanche"; Str "Ferie"; Str "Lundi"; Str "Samedi"]);
             ("Accidents", plain [Num 20; Num 8; Num 5; Num 10]) ]
   ∧ ¬ NoDup ["Lundi"; "Samedi"; "Lundi"])
  ∧ status (@plot_accidents_by_day left_to_right pandas_unavailable 0 "Jour"
              "Accidents" None None None (Some ["Lundi"; "Samedi"; "Lundi"])
              holiday_world)
    = inl (ValueError "Categorical categories must be unique")
  ∧ stdout (final (@plot_accidents_by_day left_to_right pandas_unavailable 0 "Jour"
              "Accidents" None None None (Some ["Lundi"; "Samedi"; "Lundi"])
              holiday_world)) = []
  ∧ figures (final (@plot_accidents_by_day left_to_right pandas_unavailable 0 "Jour"
              "Accidents" None None None (Some ["Lundi"; "Samedi"; "Lundi"])
              holiday_world)) = []
  ∧ display (final (@plot_accidents_by_day left_to_right pandas_unavailable 0 "Jour"
              "Accidents" None None None (Some ["Lundi"; "Samedi"; "Lundi"])
              holiday_world)) = [].
Proof.
  assert (¬ NoDup ["Lundi"; "Samedi"; "Lundi"]) as Hdup.
  { intros Hnodup. apply NoDup_cons in Hnodup as [Hnotin _].
    apply Hnotin. right. left. }
  split; [done|].
  exact (@duplicate_day_order_raises left_to_right pandas_unavailable
           holiday_world 0 week_with_holidays _ "Jour" "Accidents" None None None
           ["Lundi"; "Samedi"; "Lundi"] eq_refl eq_refl Hdup).
Defined.

(** ** Ordering by category keeps every row *)

Lemma listed_cons (cat : string) (cats : list string) (c : cell) :
  listed (cat :: cats) c = is_category cat c || listed cats c.
Proof.
  destruct c as [s| |]; try done. cbn [listed is_category].
  apply eq_true_iff_eq.
  rewrite orb_true_iff, !bool_decide_eq_true. set_solver.
Qed.

Lemma is_category_listed (cat : string) (cats : list string) (c : cell) :
  cat ∉ cats → is_category cat c = true → listed cats c = false.
Proof.
  intros Hcat. destruct c as [s| |]; try done. cbn [listed is_category].
  rewrite bool_decide_eq_true, bool_decide_eq_false. by intros ->.
Qed.

Ltac decide_filters :=
  repeat first [ rewrite decide_True by done
               | rewrite decide_False by (by intros []) ].

Lemma filter_listed_cons {A} (key : A → cell) (cat : string) (cats : list string)
    (l : list A) :
  cat ∉ cats →
  filter (λ a, listed (cat :: cats) (key a)) l
  ≡ₚ filter (λ a, is_category cat (key a)) l ++ filter (λ a, listed cats (key a)) l.
Proof.
  intros Hcat. induction l as [|a l IH]; [done|].
  rewrite !filter_cons. cbv beta.
  pose proof (listed_cons cat cats (key a)) as Hcons.
  pose proof (is_category_listed cat cats (key a) Hcat) as Hdisj.
  rewrite Hcons.
  destruct (is_category cat (key a)) eqn:Hc, (listed cats (key a)) eqn:Hl;
    cbn [orb]; decide_filters.
  - by discriminate Hdisj.
  - by rewrite IH.
  - rewrite IH. apply Permutation_middle.
  - done.
Qed.

Lemma rows_by_category {A} (key : A → cell) (cats : list string) (l : list A) :
  NoDup cats →
  (cats ≫= λ cat, filter (λ a, is_category cat (key a)) l)
  ≡ₚ filter (λ a, listed cats (key a)) l.
Proof.
  induction 1 as [|cat cats Hcat _ IH].
  - cbn. induction l as [|a l IHl]; [done|].
    rewrite filter_cons. cbv beta. by destruct (key a).
  - rewrite bind_cons, IH. symmetry. by apply filter_listed_cons.
Qed.

Lemma rows_partition {A} (key : A → cell) (cats : list string) (l : list A) :
  NoDup cats →
  (cats ≫= λ cat, filter (λ a, is_category cat (key a)) l)
  ++ filter (λ a, negb (listed cats (key a))) l ≡ₚ l.
Proof.
  intros Hcats. rewrite (rows_by_category key cats l Hcats).
  induction l as [|a l IH]; [done|].
  rewrite !filter_cons. cbv beta.
  destruct (listed cats (key a)); cbn [negb]; decide_filters.
  - rewrite <- app_comm_cons. by rewrite IH.
  - rewrite <- Permutation_middle. by rewrite IH.
Qed.

Lemma reflexive_eq {A} (l k : list A) : l = k → l ≡ₚ k.
Proof. by intros ->. Qed.

Lemma fmap_snd_bind {A B C} (f : A → list (B * C)) (l : list A) :
  (l ≫= f).*2 = l ≫= λ a, (f a).*2.
Proof. apply fmap_bind_list. Qed.

Section by_day_rows.
Context `{GroupBy} `{Pandas}.

(** X11: ordering the bars of [plot_accidents_by_day] loses and
    duplicates nothing.  When the grouping succeeds and the labels of
    [day_order] are distinct, the value column of the chart is a
    permutation of the grouped sums, and its day column a permutation of
    the grouped labels turned into categories. *)
Theorem by_day_chart_keeps_every_group (w : world) (df : loc) (fr g : frame)
    (day_col value_col : string) (title xlabel ylabel : option string)
    (day_order : option (list string)) :
  let order := default canonical_days day_order in
  heap w !! df = Some (OFrame fr) →
  groupby_agg agg_sum fr [day_col] [value_col] = inr g →
  NoDup order →
  ∃ (keys sums days' sums' : list cell) (w' : world),
    g = [(day_col, plain keys); (value_col, plain sums)]
    ∧ plot_accidents_by_day df day_col value_col title xlabel ylabel day_order w
      = Ok PyNone w'
    ∧ display w' = display w ++ reverse (figures w) ++
        [ Chart "bar"
            [ (day_col, Column (Some order) days'); (value_col, plain sums') ]
            day_col value_col
            (default "Number of Accidents per Day of the Week" title)
            (default "Day of the Week" xlabel)
            (default "Total Number of Accidents" ylabel) ]
    ∧ days' ≡ₚ to_category order <$> keys
    ∧ sums' ≡ₚ sums.
Proof.
  intros order Hdf Hg Hnodup.
  destruct (groupby_single_shape _ _ _ _ _ Hg) as (keys & sums & -> & Hne & Hlen).
  destruct (plot_accidents_by_day_chart w df fr day_col value_col title xlabel ylabel
              day_order keys sums Hdf Hg Hne Hlen Hnodup) as (w' & Hrun & Hshow).
  eexists keys, sums, _, _, w'. split; [done|]. split; [done|].
  split; [exact Hshow|]. split.
  - rewrite <- missing_categories.
    etrans; [|apply (rows_partition (λ c, c) order (to_category order <$> keys) Hnodup)].
    apply reflexive_eq. f_equal.
    + apply bind_ext_in. intros cat Hcat. symmetry. by apply category_rows.
    + rewrite !filter_fmap_bool. f_equal. apply filter_pair_ext. intros c.
      rewrite isna_to_category, to_category_listed.
      fold order.
      destruct (listed order c) eqn:Hl; cbv iota; [by rewrite Hl|done].
  - transitivity ((zip keys sums).*2); [|rewrite snd_zip by lia; done].
    etrans; [|apply fmap_Permutation,
               (rows_partition (λ r : cell * cell, r.1) order (zip keys sums) Hnodup)].
    by rewrite fmap_app, fmap_snd_bind.
Qed.

End by_day_rows.

(** The week with holidays, default order. *)
Lemma holiday_week_keeps_every_group :
  (heap holiday_world !! 0 = Some (OFrame week_with_holidays)
   ∧ @groupby_agg (@agg_sum left_to_right) week_with_holidays ["Jour"] ["Accidents"]
     = inr [ ("Jour", plain [Str "Dimanche"; Str "Ferie"; Str "Lundi"; Str "Samedi"]);
             ("Accidents", plain [Num 20; Num 8; Num 5; Num 10]) ]
   ∧ NoDup canonical_days)
  ∧ ∃ (keys sums days' sums' : list cell) (w' : world),
      [ ("Jour", plain [Str "Dimanche"; Str "Ferie"; Str "Lundi"; Str "Samedi"]);
        ("Accidents", plain [Num 20; Num 8; Num 5; Num 10]) ]
      = [("Jour", plain keys); ("Accidents", plain sums)]
      ∧ @plot_accidents_by_day left_to_right pandas_unavailable 0 "Jour" "Accidents"
          None None None None holiday_world = Ok PyNone w'
      ∧ display w' = display holiday_world ++ reverse (figures holiday_world) ++
          [ Chart "bar"
              [ ("Jour", Column (Some canonical_days) days');
                ("Accidents", plain sums') ]
              "Jour" "Accidents"
              "Number of Accidents per Day of the Week"
              "Day of the Week" "Total Number of Accidents" ]
      ∧ days' ≡ₚ to_category canonical_days <$> keys
      ∧ sums' ≡ₚ sums.
Proof.
  split; [split_and!; [done|done|apply canonical_days_distinct]|].
  exact (@by_day_chart_keeps_every_group left_to_right pandas_unavailable
           holiday_world 0 week_with_holidays _ "Jour" "Accidents" None None None
           None eq_refl eq_refl canonical_days_distinct).
Defined.

(** ** What a chart call shows *)

Section figures_shown.
Context `{GroupBy} `{Pandas}.

(** X12: what a chart call shows.  A call that returns returns [None],
    has printed nothing, leaves no figure open and has handed to the
    display the figures that were open before followed by its own: one
    figure, except for [plot_accident_severity_by_light_condition], whose
    [plt.figure()] is left empty by [DataFrame.plot], which draws in a
    figure of its own: an empty figure, then the chart.  A call that
    raises has shown and printed nothing. *)
Theorem chart_call_figures (c : chart_call) (w : world) :
  match run_chart c w with
  | Ok v w' =>
      v = PyNone ∧ figures w' = [] ∧ stdout w' = stdout w
      ∧ ∃ ch : chart,
          display w' = display w ++ reverse (figures w) ++
            (if is_severity_chart c then [blank; ch] else [ch])
  | Raise e w' => display w' = display w ∧ stdout w' = stdout w
  end.
Proof.
  rewrite <- (f_equal (run_chart c) (after_no_effect w)).
  generalize (eq_refl (run_chart c (after w no_effect))).
  generalize (run_chart c (after w no_effect)) at 1 3 as o.
  intros o Ho. symmetry in Ho. revert o Ho.
  destruct c; unfold_charts; unfold no_effect; cbn [is_severity_chart].
  all: unfold_calls.
  all: run_call; intros o <-.
  all: try (split; [reflexivity|unfold after; simpl; by rewrite app_nil_r]).
  all: split; [reflexivity|]; split; [reflexivity|].
  all: split; [unfold after; simpl; by rewrite app_nil_r|].
  all: eexists; reflexivity.
Qed.

End figures_shown.

(** ** Weekday/weekend labels that match no day *)

Lemma insert_day_elem (d d' : cell) (ds : list cell) :
  d' ∈ insert_day d ds → d' = d ∨ d' ∈ ds.
Proof.
  induction ds as [|a ds IH]; cbn [insert_day].
  - intros ->%list_elem_of_singleton. by left.
  - destruct (cell_compare d a).
    + by right.
    + intros [->|Hin]%elem_of_cons; [by left|by right].
    + intros [->|Hin]%elem_of_cons; [right; left|].
      destruct (IH Hin) as [->|Hds]; [by left|right; by right].
Qed.

Lemma insert_day_nonempty (d : cell) (ds : list cell) : insert_day d ds ≠ [].
Proof. destruct ds as [|a ds]; cbn [insert_day]; [done|]. by destruct (cell_compare d a). Qed.

Lemma fold_insert_day_elem (ds acc : list cell) (d : cell) :
  d ∈ fold_left (λ acc d, insert_day d acc) ds acc → d ∈ ds ∨ d ∈ acc.
Proof.
  revert acc. induction ds as [|a ds IH]; intros acc; cbn [fold_left]; [by right|].
  intros [Hds|Hacc]%IH; [left; by right|].
  destruct (insert_day_elem _ _ _ Hacc) as [->|Hin]; [left; by left|by right].
Qed.

Lemma fold_insert_day_nonempty (ds acc : list cell) :
  acc ≠ [] → fold_left (λ acc d, insert_day d acc) ds acc ≠ [].
Proof.
  revert acc. induction ds as [|a ds IH]; intros acc Hacc; cbn [fold_left]; [done|].
  apply IH, insert_day_nonempty.
Qed.

Lemma exact_days_elem (days : list cell) (d : cell) :
  d ∈ exact_days days → d ∈ days.
Proof.
  unfold exact_days. intros [Hin|Hin%elem_of_nil]%fold_insert_day_elem; [|done].
  by apply list_elem_of_filter in Hin as [_ Hin].
Qed.

Lemma exact_days_nonempty (days : list cell) (d : cell) :
  d ∈ days → isna d = false → exact_days days ≠ [].
Proof.
  intros Hin Hd. unfold exact_days.
  destruct (filter (λ d, negb (isna d)) days) as [|a ds] eqn:Hf.
  - assert (d ∈ filter (λ d, negb (isna d)) days) as Hd'
      by (apply list_elem_of_filter; by rewrite Hd).
    rewrite Hf in Hd'. by apply elem_of_nil in Hd'.
  - cbn [fold_left]. by apply fold_insert_day_nonempty.
Qed.

Lemma existsb_false {A} (P : A → bool) (l : list A) :
  (∀ a, a ∈ l → P a = false) → existsb P l = false.
Proof.
  induction l as [|a l IH]; intros HP; [done|]. cbn [existsb].
  rewrite (HP a) by left. apply IH. intros b Hb. apply HP. by right.
Qed.

Lemma existsb_true {A} (P : A → bool) (l : list A) :
  l ≠ [] → (∀ a, a ∈ l → P a = true) → existsb P l = true.
Proof.
  destruct l as [|a l]; [done|]. intros _ HP. cbn [existsb].
  by rewrite (HP a) by left.
Qed.

Lemma filter_all {A} (P : A → bool) (l : list A) :
  (∀ a, a ∈ l → P a = true) → filter (λ a, P a) l = l.
Proof.
  induction l as [|a l IH]; intros HP; [done|].
  rewrite filter_cons_True by (by rewrite (HP a) by left).
  rewrite IH; [done|]. intros b Hb. apply HP. by right.
Qed.

Section no_weekend.
Context `{GroupBy}.

(** X13: when no label of the day column is one of [weekend_days] (a
    dataset with English day names and the default Samedi/Dimanche, say),
    [plot_avg_accidents_weekday_vs_weekend] still returns: its chart has
    the single bar Weekday, the mean of all the per-day sums. *)
Theorem weekday_only_when_no_label_matches (w : world) (df : loc) (fr : frame)
    (day_col value_col : string) (binary_col : option string)
    (weekend_days : option (list string)) (title xlabel ylabel : option string)
    (dc vc : column) (day : cell) (sums : list cell) (mean : cell) :
  let label_col := default "Weekend" binary_col in
  let weekend := default ["Samedi"; "Dimanche"] weekend_days in
  heap w !! df = Some (OFrame fr) →
  get_column fr day_col = Some dc →
  get_column fr value_col = Some vc →
  length (cells dc) = nrows fr → length (cells vc) = nrows fr →
  day_col ≠ value_col → label_col ≠ day_col → label_col ≠ value_col →
  (∀ d, d ∈ cells dc → listed weekend d = false) →
  day ∈ cells dc → isna day = false →
  day_sums (cells dc) (cells vc) = inr sums →
  agg_mean sums = inr mean →
  ∃ w', plot_avg_accidents_weekday_vs_weekend df day_col value_col binary_col
          weekend_days title xlabel ylabel w = Ok PyNone w'
    ∧ display w' = display w ++ reverse (figures w) ++
        [ Chart "bar"
            [ (label_col, plain [Str "Weekday"]);
              ("Average_Accidents", plain [mean]) ]
            label_col "Average_Accidents"
            (default "Average Number of Accidents per Day (Weekdays vs. Weekends)" title)
            (default "Type of Day" xlabel)
            (default "Average Number of Accidents" ylabel) ].
Proof.
  intros label_col weekend Hdf Hdc Hvc Hd Hv Hdv Hbd Hbv Hnone Hday Hna Hsums Hmean.
  rewrite (plot_avg_accidents_weekday_vs_weekend_run w df fr day_col value_col
             binary_col weekend_days title xlabel ylabel dc Hdf Hdc).
  fold label_col weekend.
  rewrite (stage_one fr day_col value_col label_col weekend dc vc) by done.
  rewrite Hsums.
  pose proof (traverse_length _ _ _ Hsums) as Hlen.
  rewrite stage_two; [|done..].
  assert (∀ d, d ∈ exact_days (cells dc) → listed weekend d = false) as Hexact
    by (intros d Hin; by apply Hnone, exact_days_elem).
  assert (day_types_present weekend (exact_days (cells dc)) = ["Weekday"]) as ->.
  { unfold day_types_present.
    rewrite filter_cons_True.
    2:{ rewrite existsb_true; [done|by eapply exact_days_nonempty|].
        intros d Hin. by rewrite is_weekday_label, Hexact. }
    rewrite filter_cons_False; [done|].
    rewrite existsb_false; [by intros []|].
    intros d Hin. by rewrite is_weekend_label, Hexact. }
  cbn [traverse]. unfold day_type_mean.
  rewrite (filter_all (λ r : cell * cell,
             is_category "Weekday" (day_type weekend r.1))).
  2:{ intros [d s] Hin. cbn [fst]. rewrite is_weekday_label, Hexact; [done|].
      by apply elem_of_zip_l in Hin. }
  rewrite snd_zip by lia. rewrite Hmean.
  eexists. split; [reflexivity|].
  cbn [after display shown rename_column fmap list_fmap fst snd].
  rewrite decide_False by done. by rewrite decide_True.
Qed.

End no_weekend.

(** The English week: Monday 5, Saturday 10, Sunday 20, all of them
    Weekday for the default labels; the bar is 35 / 3. *)
Lemma english_week_is_all_weekday :
  (heap english_world !! 0 = Some (OFrame english_week)
   ∧ get_column english_week "Day"
     = Some (plain [Str "Saturday"; Str "Monday"; Str "Saturday"; Str "Sunday"])
   ∧ get_column english_week "Accidents"
     = Some (plain [Num 4; Num 5; Num 6; Num 20])
   ∧ (∀ d, d ∈ [Str "Saturday"; Str "Monday"; Str "Saturday"; Str "Sunday"] →
        listed ["Samedi"; "Dimanche"] d = false)
   ∧ @day_sums left_to_right
       [Str "Saturday"; Str "Monday"; Str "Saturday"; Str "Sunday"]
       [Num 4; Num 5; Num 6; Num 20] = inr [Num 5; Num 10; Num 20]
   ∧ @agg_mean left_to_right [Num 5; Num 10; Num 20] = inr (Num (35 / 3)))
  ∧ ∃ w', @plot_avg_accidents_weekday_vs_weekend left_to_right 0 "Day" "Accidents"
            None None None None None english_world = Ok PyNone w'
      ∧ display w' = display english_world ++ reverse (figures english_world) ++
          [ Chart "bar"
              [ ("Weekend", plain [Str "Weekday"]);
                ("Average_Accidents", plain [Num (35 / 3)]) ]
              "Weekend" "Average_Accidents"
              "Average Number of Accidents per Day (Weekdays vs. Weekends)"
              "Type of Day" "Average Number of Accidents" ].
Proof.
  assert ("Day" ≠ "Accidents") as H1 by done.
  assert ("Weekend" ≠ "Day") as H2 by done.
  assert ("Weekend" ≠ "Accidents") as H3 by done.
  assert (∀ d, d ∈ [Str "Saturday"; Str "Monday"; Str "Saturday"; Str "Sunday"] →
            listed ["Samedi"; "Dimanche"] d = false) as Hnone.
  { intros d Hd. repeat (apply elem_of_cons in Hd as [->|Hd]; [done|]).
    by apply elem_of_nil in Hd. }
  assert (Str "Saturday" ∈ [Str "Saturday"; Str "Monday"; Str "Saturday"; Str "Sunday"])
    as Hday by left.
  split; [by split_and!|].
  exact (@weekday_only_when_no_label_matches left_to_right english_world 0
           english_week "Day" "Accidents" None None None None None _ _
           (Str "Saturday") [Num 5; Num 10; Num 20] (Num (35 / 3))
           eq_refl eq_refl eq_refl eq_refl eq_refl H1 H2 H3 Hnone Hday eq_refl
           eq_refl eq_refl).
Defined.

(** ** Grouping by one column *)

Lemma key_compare_one (a b : cell) : key_compare [a] [b] = cell_compare a b.
Proof. cbn [key_compare]. by destruct (cell_compare a b). Qed.

Section by_hour.
Context `{GroupBy}.

(** Grouping by one column and summing another: one row per exact label
    of the key column, in sorted order, with the sum over its rows. *)
Lemma groupby_sum_by_key (fr : frame) (key val : string) (kc vc : column) :
  get_column fr key = Some kc →
  get_column fr val = Some vc →
  length (cells kc) = nrows fr → length (cells vc) = nrows fr →
  key ≠ val →
  groupby_agg agg_sum fr [key] [val]
  = match day_sums (cells kc) (cells vc) with
    | inl e => inl e
    | inr sums => inr [ (key, plain (exact_days (cells kc))); (val, plain sums) ]
    end.
Proof.
  intros Hkc Hvc Hk Hv Hkv.
  set (keys := cells kc). set (values := cells vc).
  unfold groupby_agg. cbn [traverse]. rewrite getitem_cols_one. unfold getitem.
  rewrite Hkc, Hvc.
  cbn [fmap list_fmap cells plain snd]. fold keys values.
  replace (transpose (nrows fr) [keys]) with ((λ c, [c]) <$> keys)
    by (by rewrite <- Hk, transpose_one).
  replace (transpose (nrows fr) [values]) with ((λ v, [v]) <$> values)
    by (by rewrite <- Hv, transpose_one).
  rewrite (zip_fmap_fst_filter (λ r : cell * cell, negb (isna r.1))
             (λ c, [c]) (λ v, [v])
             (λ r, forallb (λ c, negb (isna c)) r.1)); last first.
  { intros x y. simpl. by rewrite andb_true_r. }
  set (rows := filter _ (zip keys values)).
  assert ((prod_map (λ c : cell, [c]) (λ v : cell, [v]) <$> rows).*1
          = (λ c, [c]) <$> filter (λ d, negb (isna d)) keys) as ->.
  { rewrite <- list_fmap_compose.
    rewrite <- (fst_filter_zip (λ d, negb (isna d)) keys values)
      by (unfold keys, values; congruence).
    by rewrite <- list_fmap_compose. }
  rewrite (group_keys_embed (λ c, [c])) by (intros a b; apply key_compare_one).
  fold (exact_days keys). rewrite traverse_fmap.
  rewrite (traverse_ext _ (λ d, match day_sum keys values d with
                                | inl e => inl e
                                | inr s => inr [s]
                                end)); last first.
  { intros d. rewrite aggregate_one.
    rewrite (group_values (λ c, [c]) (λ a, same_day a d)); [done|].
    intros a. unfold same_key, same_day. by rewrite key_compare_one. }
  rewrite traverse_wrap. fold (day_sums keys values).
  destruct (day_sums keys values) as [e|sums]; [done|].
  rewrite decide_True by (by apply NoDup_two).
  cbn [imap app]. rewrite <- !list_fmap_compose.
  rewrite !(fmap_id_ext (nth_cell 0 ∘ (λ b : cell, [b]))) by done.
  reflexivity.
Qed.

(** X14: the chart of [plot_accidents_by_hour].  For a dataset whose
    hour and value columns have one cell per row, the chart has one bar
    per exact hour that occurs, rows without an hour being left out, in
    increasing order of the hour, with the sum of the value column over
    the rows of that hour; a failure of the sum is the failure of the
    call. *)
Theorem plot_accidents_by_hour_chart (w : world) (df : loc) (fr : frame)
    (hour_col value_col : string) (title xlabel ylabel : option string)
    (hc vc : column) :
  heap w !! df = Some (OFrame fr) →
  get_column fr hour_col = Some hc →
  get_column fr value_col = Some vc →
  length (cells hc) = nrows fr → length (cells vc) = nrows fr →
  hour_col ≠ value_col →
  match day_sums (cells hc) (cells vc) with
  | inr sums =>
      ∃ w', plot_accidents_by_hour df hour_col value_col title xlabel ylabel w
            = Ok PyNone w'
        ∧ display w' = display w ++ reverse (figures w) ++
            [ Chart "bar"
                [ (hour_col, plain (exact_days (cells hc)));
                  (value_col, plain sums) ]
                hour_col value_col
                (default "Accident Distribution by Hour" title)
                (default "Hour of the Day" xlabel)
                (default "Total Number of Accidents" ylabel) ]
  | inl e =>
      status (plot_accidents_by_hour df hour_col value_col title xlabel ylabel w)
      = inl e
  end.
Proof.
  intros Hdf Hhc Hvc Hh Hv Hne.
  pose proof (groupby_sum_by_key fr hour_col value_col hc vc Hhc Hvc Hh Hv Hne) as Hg.
  destruct (day_sums (cells hc) (cells vc)) as [e|sums].
  - assert (∃ w', plot_accidents_by_hour df hour_col value_col title xlabel ylabel w
                    = Raise e w') as [w' ->]; [|done].
    eexists. apply run_from_start.
    unfold plot_accidents_by_hour, no_effect. unfold_calls.
    rewrite load_caller, Hdf. repeat step. rewrite Hg. repeat step. reflexivity.
  - eexists. split.
    + apply run_from_start.
      unfold plot_accidents_by_hour, no_effect. unfold_calls.
      rewrite load_caller, Hdf. repeat step. rewrite Hg. repeat step. reflexivity.
    + reflexivity.
Qed.

End by_hour.

(** The hourly counts: the row without an hour is left out, 8 comes
    before 17. *)
Lemma rush_hours_chart :
  (heap rush_hours_world !! 0 = Some (OFrame rush_hours)
   ∧ get_column rush_hours "Heure"
     = Some (plain [Num 17; Num 8; Num 17; NA; Num 8])
   ∧ get_column rush_hours "Accidents"
     = Some (plain [Num 3; Num 2; Num 4; Num 9; Num 1])
   ∧ "Heure" ≠ "Accidents")
  ∧ ∃ w', @plot_accidents_by_hour left_to_right 0 "Heure" "Accidents"
            None None None rush_hours_world = Ok PyNone w'
      ∧ display w' = display rush_hours_world ++ reverse (figures rush_hours_world) ++
          [ Chart "bar"
              [ ("Heure", plain [Num 8; Num 17]);
                ("Accidents", plain [Num 3; Num 7]) ]
              "Heure" "Accidents" "Accident Distribution by Hour"
              "Hour of the Day" "Total Number of Accidents" ].
Proof.
  assert ("Heure" ≠ "Accidents") as H1 by done.
  split; [by split_and!|].
  exact (@plot_accidents_by_hour_chart left_to_right rush_hours_world 0 rush_hours
           "Heure" "Accidents" None None None _ _
           eq_refl eq_refl eq_refl eq_refl eq_refl H1).
Defined.

(** ** The pie of [plot_accidents_by_light_condition] *)

Lemma wedge_sizes_plain (sizes : list cell) :
  plain_sizes sizes = true → wedge_sizes sizes = inr ().
Proof.
  unfold plain_sizes, wedge_sizes. intros [Hall _]%andb_true_iff.
  assert (existsb is_negative sizes = false) as ->; [|done].
  induction sizes as [|c sizes IH]; [done|].
  cbn [forallb existsb] in *. apply andb_true_iff in Hall as [Hc Hall].
  rewrite (IH Hall), orb_false_r.
  destruct c as [s|x|]; try done. cbn [is_negative].
  apply andb_true_iff in Hc as [Hpos _]. by rewrite (leb_not_ltb _ _ Hpos).
Qed.

Section by_light_condition.
Context `{GroupBy} `{Pandas}.

(** X15: the pie of [plot_accidents_by_light_condition].  For a dataset
    whose two columns have one cell per row, and column names other than
    Proportion, when the per-condition sums of the value column are sizes
    a pie can be drawn from (numbers between 0 and 2^64, not all below
    2^-64), the slices are these sums, labelled by the conditions in
    sorted order; the Proportion column is computed and stored in the
    call's own table, and is not what the pie is drawn from.  (A negative
    sum makes [plt.pie] raise: see [light_pie] in
    [underlying_failure].) *)
Theorem plot_accidents_by_light_condition_pie (w : world) (df : loc) (fr : frame)
    (light_col value_col : string) (title : option string)
    (lc vc : column) (sums : list cell) (total : cell) (proportion : list cell) :
  heap w !! df = Some (OFrame fr) →
  get_column fr light_col = Some lc →
  get_column fr value_col = Some vc →
  length (cells lc) = nrows fr → length (cells vc) = nrows fr →
  light_col ≠ value_col → light_col ≠ "Proportion" → value_col ≠ "Proportion" →
  day_sums (cells lc) (cells vc) = inr sums →
  plain_sizes sums = true →
  series_sum sums = inr total →
  series_div_scalar sums total = inr proportion →
  ∃ w', plot_accidents_by_light_condition df light_col value_col title w
        = Ok PyNone w'
    ∧ heap w' = heap w ++
        [ OFrame [ (light_col, plain (exact_days (cells lc)));
                   (value_col, plain sums);
                   ("Proportion", plain proportion) ] ]
    ∧ display w' = display w ++ reverse (figures w) ++
        [ Chart "pie"
            [ (light_col, plain (exact_days (cells lc)));
              (value_col, plain sums) ]
            light_col value_col
            (default "Accidents by Light Condition" title) "" "" ].
Proof.
  intros Hdf Hlc Hvc Hl Hv Hne Hlp Hvp Hsums Hsizes Htotal Hprop.
  pose proof (groupby_sum_by_key fr light_col value_col lc vc Hlc Hvc Hl Hv Hne) as Hg.
  pose proof (wedge_sizes_plain sums Hsizes) as Hpie.
  rewrite Hsums in Hg.
  eexists. split; [|split].
  - apply run_from_start.
    unfold plot_accidents_by_light_condition, no_effect. unfold_calls.
    rewrite load_caller, Hdf. repeat step. rewrite Hg.
    repeat first
      [ step
      | progress unfold getitem
      | progress cbn [cells plain set_column get_column fst snd]
      | rewrite decide_False by congruence
      | rewrite decide_True by congruence
      | rewrite Htotal
      | rewrite Hprop
      | rewrite Hpie ].
    reflexivity.
  - reflexivity.
  - reflexivity.
Qed.

End by_light_condition.

(** Jour 6 and Nuit 2 out of 8. *)
Lemma light_conditions_pie :
  (heap light_conditions_world !! 0 = Some (OFrame light_conditions)
   ∧ get_column light_conditions "Lumiere"
     = Some (plain [Str "Jour"; Str "Nuit"; Str "Jour"])
   ∧ get_column light_conditions "Accidents" = Some (plain [Num 5; Num 2; Num 1])
   ∧ @day_sums left_to_right [Str "Jour"; Str "Nuit"; Str "Jour"]
       [Num 5; Num 2; Num 1] = inr [Num 6; Num 2]
   ∧ plain_sizes [Num 6; Num 2] = true
   ∧ @series_sum pandas_series [Num 6; Num 2] = inr (Num 8)
   ∧ @series_div_scalar pandas_series [Num 6; Num 2] (Num 8)
     = inr [Num 0.75; Num 0.25])
  ∧ ∃ w', @plot_accidents_by_light_condition left_to_right pandas_series
            0 "Lumiere" "Accidents" None light_conditions_world = Ok PyNone w'
      ∧ heap w' = heap light_conditions_world ++
          [ OFrame [ ("Lumiere", plain [Str "Jour"; Str "Nuit"]);
                     ("Accidents", plain [Num 6; Num 2]);
                     ("Proportion", plain [Num 0.75; Num 0.25]) ] ]
      ∧ display w'
        = display light_conditions_world ++ reverse (figures light_conditions_world) ++
          [ Chart "pie"
              [ ("Lumiere", plain [Str "Jour"; Str "Nuit"]);
                ("Accidents", plain [Num 6; Num 2]) ]
              "Lumiere" "Accidents" "Accidents by Light Condition" "" "" ].
Proof.
  assert ("Lumiere" ≠ "Accidents") as H1 by done.
  assert ("Lumiere" ≠ "Proportion") as H2 by done.
  assert ("Accidents" ≠ "Proportion") as H3 by done.
  split; [by split_and!|].
  exact (@plot_accidents_by_light_condition_pie left_to_right pandas_series
           light_conditions_world 0 light_conditions "Lumiere" "Accidents" None
           _ _ [Num 6; Num 2] (Num 8) [Num 0.75; Num 0.25]
           eq_refl eq_refl eq_refl eq_refl eq_refl H1 H2 H3
           eq_refl eq_refl eq_refl eq_refl).
Defined.

(** A negative sum is refused by [plt.pie]: the call raises its
    [ValueError] and shows nothing. *)
Lemma negative_sum_is_refused :
  status (@plot_accidents_by_light_condition left_to_right pandas_series
            0 "Lumiere" "Accidents" None
            (World [OFrame corrected_counts] [] [] [] []))
  = inl (ValueError "Wedge sizes 'x' must be non negative values")
  ∧ display (final (@plot_accidents_by_light_condition left_to_right pandas_series
                      0 "Lumiere" "Accidents" None
                      (World [OFrame corrected_counts] [] [] [] []))) = [].
Proof. split; by vm_compute. Qed.
